(** * @turnkey/stacks: the signing pipeline of the Turnkey signer for Stacks

    A shallow embedding of the two revisions of [index.ts] that the
    repository holds (src/src/index.ts and src/unnamed/part_000) together
    with their type files, and the properties of the signing pipeline:
    public-key validation, recovery-byte normalisation, signature assembly,
    nonce and fee resolution, and the request sent to the delegated signer.

    Modelling conventions.
    - A JavaScript string is a [string]; a character stands for one UTF-16
      code unit below 256, and [String.length] is the JavaScript [length].
    - A [bigint] is a [Z]; a JavaScript number that holds an integer is a [Z]
      as well ([NaN] is kept apart, see [Number]).
    - [throw] is the left injection of [Outcome]; a value that was thrown is
      a [Thrown].
    - An [async] function returns a [Promise]: the outcome together with the
      calls that left the process (nonce fetch, delegated signing), in
      order. *)

From Stdlib Require Import String Ascii ZArith List Lia Bool.
From Stdlib Require DecimalString HexadecimalString.
Import ListNotations.

Open Scope string_scope.

(** ** JavaScript strings *)

Module JsString.

(** [s.startsWith(p)] *)
Definition startsWith (s p : string) : bool := String.prefix p s.

(** [s.slice(n)] for [0 <= n] *)
Definition slice_from (s : string) (n : nat) : string :=
  substring n (String.length s - n) s.

(** [s.slice(a, b)] for [0 <= a <= b] *)
Definition slice (s : string) (a b : nat) : string :=
  substring a (b - a) s.

(** [s.includes(sub)] *)
Fixpoint includes (s sub : string) : bool :=
  String.prefix sub s ||
  match s with
  | EmptyString => false
  | String _ s' => includes s' sub
  end.

(** Lower-casing of one code unit below 256: A-Z, and the Latin-1
    capitals U+00C0..U+00DE except the multiplication sign U+00D7. *)
Definition toLowerCase_char (c : ascii) : ascii :=
  let n := nat_of_ascii c in
  if ((65 <=? n) && (n <=? 90))%nat
     || ((192 <=? n) && (n <=? 222) && negb (n =? 215))%nat
  then ascii_of_nat (n + 32)
  else c.

(** [s.toLowerCase()] on a string of code units below 256, where JavaScript
    maps every code unit to one code unit.  A JavaScript string may hold
    other code units, and lower-casing can then change its length (U+0130
    becomes two code units); what is proved of the revision that lower-cases
    is therefore stated of the lower-cased string, or of keys of ASCII
    characters. *)
Fixpoint toLowerCase (s : string) : string :=
  match s with
  | EmptyString => EmptyString
  | String c s' => String (toLowerCase_char c) (toLowerCase s')
  end.

(** The filler of [padStart]: the first [n] characters of [pad] repeated;
    [cur] is what is left of the current copy of [pad]. *)
Fixpoint filler (pad cur : string) (n : nat) : string :=
  match n with
  | O => EmptyString
  | S n' =>
      match cur with
      | String c rest => String c (filler pad rest n')
      | EmptyString =>
          match pad with
          | String c rest => String c (filler pad rest n')
          | EmptyString => EmptyString
          end
      end
  end.

(** [s.padStart(targetLength, padString)] *)
Definition padStart (s : string) (targetLength : nat) (padString : string)
  : string :=
  if (targetLength <=? String.length s)%nat then s
  else if String.eqb padString "" then s
  else filler padString padString (targetLength - String.length s) ++ s.

(** [String(n)] / template interpolation of a non-negative integer *)
Definition of_nat (n : nat) : string :=
  DecimalString.NilZero.string_of_uint (Nat.to_uint n).

(** The line feed of a template literal's [\n]. *)
Definition LF : string := String (ascii_of_nat 10) EmptyString.

End JsString.

Import JsString.

(** ** JavaScript numbers, as far as [parseInt] and [toString] need them *)

Inductive Number : Type :=
| NaN
| Int (z : Z).

Module JsNumber.

(** [StrWhiteSpaceChar], restricted to code units below 256:
    TAB, LF, VT, FF, CR, SP and NBSP. *)
Definition isWhiteSpace (c : ascii) : bool :=
  let n := nat_of_ascii c in
  ((9 <=? n) && (n <=? 13) || (n =? 32) || (n =? 160))%nat.

Fixpoint trimStart (s : string) : string :=
  match s with
  | String c s' => if isWhiteSpace c then trimStart s' else s
  | EmptyString => EmptyString
  end.

(** The value of a digit: 0-9, then a-z and A-Z for 10..35. *)
Definition digitValue (c : ascii) : option Z :=
  let n := Z.of_nat (nat_of_ascii c) in
  if ((48 <=? n) && (n <=? 57))%Z then Some (n - 48)%Z
  else if ((97 <=? n) && (n <=? 122))%Z then Some (n - 87)%Z
  else if ((65 <=? n) && (n <=? 90))%Z then Some (n - 55)%Z
  else None.

(** The longest prefix of [s] made of radix-[R] digits, read left to right
    with accumulator [acc]; [seen] tells whether a digit was read. *)
Fixpoint digits (R : Z) (s : string) (acc : Z) (seen : bool) : option Z :=
  match s with
  | EmptyString => if seen then Some acc else None
  | String c s' =>
      match digitValue c with
      | Some d =>
          if (d <? R)%Z then digits R s' (acc * R + d)%Z true
          else if seen then Some acc else None
      | None => if seen then Some acc else None
      end
  end.

(** [parseInt(string, radix)] (ECMA-262, 19.2.5).  The result is the
    mathematical integer; minus zero is [Int 0]. *)
Definition parseInt (input : string) (radix : Z) : Number :=
  let S0 := trimStart input in
  let sign := if startsWith S0 "-" then (-1)%Z else 1%Z in
  let S1 := if startsWith S0 "+" || startsWith S0 "-"
            then slice_from S0 1 else S0 in
  if negb (radix =? 0)%Z && ((radix <? 2)%Z || (36 <? radix)%Z) then NaN
  else
    let stripPrefix := (radix =? 0)%Z || (radix =? 16)%Z in
    let hexPrefix := stripPrefix && (startsWith S1 "0x" || startsWith S1 "0X") in
    let R := if (radix =? 0)%Z then (if hexPrefix then 16%Z else 10%Z)
             else radix in
    let S2 := if hexPrefix then slice_from S1 2 else S1 in
    match digits R S2 0%Z false with
    | None => NaN
    | Some mathInt => Int (sign * mathInt)
    end.

(** [x !== y] on numbers: [NaN] differs from everything. *)
Definition strictNotEqual (x : Number) (y : Z) : bool :=
  match x with
  | NaN => true
  | Int z => negb (z =? y)%Z
  end.

(** [x.toString(16)] on an integer or [NaN]. *)
Definition toString16 (x : Number) : string :=
  match x with
  | NaN => "NaN"
  | Int z => HexadecimalString.NilZero.string_of_int (Z.to_hex_int z)
  end.

End JsNumber.

Import JsNumber.

(** ** Exceptions *)

(** What a [throw] carries: an [Error] object with its message, or any other
    value, kept as its [String(value)]. *)
Inductive Thrown : Type :=
| Error (message : string)
| Value (repr : string).

Definition Outcome (A : Type) : Type := (Thrown + A)%type.

Definition throw {A : Type} (e : Thrown) : Outcome A := inl e.

(** [error instanceof Error ? error.message : String(error)] *)
Definition messageOf (error : Thrown) : string :=
  match error with
  | Error message => message
  | Value repr => repr
  end.

(** ** types.ts *)

Inductive StacksNetworkType : Type := testnet | mainnet.

(** [a ?? b] *)
Definition nullish {A : Type} (a : option A) (b : A) : A :=
  match a with
  | Some x => x
  | None => b
  end.

Infix "??" := nullish (at level 45, left associativity).

Module SignRawPayloadParams.
(** The argument of [signRawPayload] (types.ts); [organizationId] is a
    property of the later revision only and is absent ([None]) otherwise. *)
Record t : Type := {
  organizationId : option string;
  signWith : string;
  payload : string;
  encoding : string;
  hashFunction : string
}.
End SignRawPayloadParams.

Module RawSignature.
Record t : Type := { v : string; r : string; s : string }.
End RawSignature.

(** [TurnkeySignerClient]: the one method the signer asks of a client.  The
    promise it returns is settled with a signature or rejected. *)
Record TurnkeySignerClient : Type := {
  signRawPayload : SignRawPayloadParams.t -> Outcome RawSignature.t
}.

Module TurnkeySignerConfig.
(** [organizationId] is required in src/src/types.ts ([Some]) and optional
    in the later types file. *)
Record t : Type := {
  client : TurnkeySignerClient;
  publicKey : string;
  organizationId : option string;
  network : option StacksNetworkType
}.
End TurnkeySignerConfig.

Module STXTransferParams.
Record t : Type := {
  recipient : string;
  amount : Z;
  nonce : option Z;
  fee : option Z;
  memo : option string;
  network : option StacksNetworkType
}.
End STXTransferParams.

Module SignedTransactionResult.
Record t (Tx : Type) : Type := {
  transaction : Tx;
  senderAddress : string;
  nonce : Z;
  fee : Z
}.
Arguments transaction {Tx}.
Arguments senderAddress {Tx}.
Arguments nonce {Tx}.
Arguments fee {Tx}.
End SignedTransactionResult.

(** ** The external collaborators *)

Module UnsignedTokenTransferOptions.
(** The object handed to [makeUnsignedSTXTokenTransfer]. *)
Record t : Type := {
  recipient : string;
  amount : Z;
  publicKey : string;
  nonce : Z;
  fee : Z;
  network : StacksNetworkType;
  memo : option string
}.
End UnsignedTokenTransferOptions.

(** What index.ts imports from @stacks/transactions.  The library is not
    part of the repository: its types are abstract and its functions are
    arbitrary functions of their arguments. *)
Class StacksTransactions : Type := {
  StacksTransactionWire : Type;
  MessageSignatureWire : Type;
  AuthType : Type;
  validateStacksAddress : string -> bool;
  publicKeyToAddress : string -> StacksNetworkType -> string;
  makeUnsignedSTXTokenTransfer :
    UnsignedTokenTransferOptions.t -> Outcome StacksTransactionWire;
  (** [new TransactionSigner(transaction).sigHash] *)
  sigHash : StacksTransactionWire -> string;
  (** [transaction.auth.authType] *)
  authType : StacksTransactionWire -> AuthType;
  (** [transaction.auth.spendingCondition.fee] and [.nonce] *)
  spendingCondition_fee : StacksTransactionWire -> Z;
  spendingCondition_nonce : StacksTransactionWire -> Z;
  sigHashPreSign : string -> AuthType -> Z -> Z -> string;
  createMessageSignature : string -> Outcome MessageSignatureWire;
  (** [transaction.auth.spendingCondition.signature = signature] *)
  setSignature :
    StacksTransactionWire -> MessageSignatureWire -> StacksTransactionWire
}.

Module NonceResponse.
(** The body of the nonce service, cast to
    [{ possible_next_nonce?: number }]; the number is an integer ([BigInt]
    throws on a fraction, which is outside the model), and [None] stands for
    a field that is absent, [undefined] or [null]. *)
Record t : Type := { possible_next_nonce : option Z }.
End NonceResponse.

Module Response.
(** The part of a fetch [Response] that [fetchNonce] reads. *)
Record t : Type := {
  status : nat;
  statusText : string;
  json : Outcome NonceResponse.t
}.
(** [res.ok]: the status is in the range 200-299. *)
Definition ok (res : t) : bool :=
  ((200 <=? status res) && (status res <=? 299))%nat.
End Response.

(** The global [fetch]. *)
Class HostEnvironment : Type := {
  fetch : string -> Outcome Response.t
}.

(** ** Promises *)

(** A call that leaves the process. *)
Inductive Call : Type :=
| Fetch (url : string)
| SignRawPayload (request : SignRawPayloadParams.t).

(** The calls made, oldest first, and how the promise settled. *)
Definition Promise (A : Type) : Type := (list Call * Outcome A)%type.

Definition resolve {A : Type} (a : A) : Promise A := ([], inr a).
Definition reject {A : Type} (e : Thrown) : Promise A := ([], inl e).

(** A synchronous computation inside an [async] function. *)
Definition settled {A : Type} (o : Outcome A) : Promise A := ([], o).

Definition bind {A B : Type} (m : Promise A) (k : A -> Promise B) : Promise B :=
  match m with
  | (calls, inl e) => (calls, inl e)
  | (calls, inr a) => let (calls', o) := k a in ((calls ++ calls')%list, o)
  end.

Notation "x <- m ;; k" := (bind m (fun x => k))
  (at level 61, m at next level, right associativity).

(** [try { body } catch (error) { handler }] *)
Definition try_catch {A : Type} (body : Promise A) (handler : Thrown -> Promise A)
  : Promise A :=
  match body with
  | (calls, inl error) => let (calls', o) := handler error in ((calls ++ calls')%list, o)
  | (calls, inr a) => (calls, inr a)
  end.

Definition calls {A : Type} (p : Promise A) : list Call := fst p.
Definition outcome {A : Type} (p : Promise A) : Outcome A := snd p.

(** [await fetch(url)] *)
Definition await_fetch `{HostEnvironment} (url : string) : Promise Response.t :=
  ([Fetch url], fetch url).

(** [await client.signRawPayload(request)] *)
Definition await_signRawPayload (client : TurnkeySignerClient)
  (request : SignRawPayloadParams.t) : Promise RawSignature.t :=
  ([SignRawPayload request], signRawPayload client request).

(** ** Module-level constants and functions of index.ts *)

Definition DEFAULT_FEE : Z := 180.

Definition API_ENDPOINTS (network : StacksNetworkType) : string :=
  match network with
  | testnet => "https://api.testnet.hiro.so"
  | mainnet => "https://api.hiro.so"
  end.

Definition keyLengthMessage (got : nat) : string :=
  "Invalid public key length: expected 66 hex chars (33 bytes compressed), got "
  ++ of_nat got.

Definition keyPrefixMessage (prefix : string) : string :=
  "Invalid public key prefix: expected '02' or '03' (compressed), got '"
  ++ prefix ++ "'".

Definition signatureLengthMessage (got : nat) : string :=
  "Invalid signature length: expected 130 hex chars (65 bytes), got "
  ++ of_nat got.

(** [normalizeRecoveryByte] (src/src/index.ts 103-109, part_000 116-122) *)
Definition normalizeRecoveryByte (v : string) : Outcome string :=
  let parsed := parseInt v 16 in
  if strictNotEqual parsed 0 && strictNotEqual parsed 1 then
    throw (Error ("Invalid recovery byte value: " ++ v ++ " (expected 0 or 1)"))
  else inr (padStart (toString16 parsed) 2 "0").

(** ** class TurnkeySigner *)

Module TurnkeySigner.
Record t : Type := {
  organizationId : option string;
  network : StacksNetworkType;
  client : TurnkeySignerClient;
  compressedPublicKey : string
}.
End TurnkeySigner.

(** The members whose text is the same in both revisions.  They reach the
    revision's own [validateCompressedPublicKey] and [signHash], which are
    the two variables of the section. *)
Module Shared.
Section Members.

Context `{StacksTransactions} `{HostEnvironment}.

Variable validateCompressedPublicKey : string -> Outcome string.
Variable signHash : TurnkeySigner.t -> string -> Promise RawSignature.t.

(** [constructor(config)] *)
Definition constructor (config : TurnkeySignerConfig.t) : Outcome TurnkeySigner.t :=
  match validateCompressedPublicKey (TurnkeySignerConfig.publicKey config) with
  | inl e => inl e
  | inr cleaned =>
      inr {| TurnkeySigner.client := TurnkeySignerConfig.client config;
             TurnkeySigner.organizationId :=
               TurnkeySignerConfig.organizationId config;
             TurnkeySigner.network :=
               TurnkeySignerConfig.network config ?? testnet;
             TurnkeySigner.compressedPublicKey := cleaned |}
  end.

(** [getAddress(network?)] *)
Definition getAddress (this : TurnkeySigner.t)
  (network : option StacksNetworkType) : string :=
  publicKeyToAddress (TurnkeySigner.compressedPublicKey this)
    (network ?? TurnkeySigner.network this).

(** [getPublicKey()] *)
Definition getPublicKey (this : TurnkeySigner.t) : string :=
  TurnkeySigner.compressedPublicKey this.

(** [fetchNonce(address, network)] *)
Definition fetchNonce (address : string) (network : StacksNetworkType)
  : Promise Z :=
  let baseUrl := API_ENDPOINTS network in
  let url := baseUrl ++ "/extended/v1/address/" ++ address ++ "/nonces" in
  res <- await_fetch url ;;
  if negb (Response.ok res) then
    reject (Error ("Failed to fetch nonce: " ++ of_nat (Response.status res)
                   ++ " " ++ Response.statusText res))
  else
    data <- settled (Response.json res) ;;
    resolve (NonceResponse.possible_next_nonce data ?? 0%Z).

(** [signSTXTransfer(params)] *)
Definition signSTXTransfer (this : TurnkeySigner.t) (params : STXTransferParams.t)
  : Promise (SignedTransactionResult.t StacksTransactionWire) :=
  let recipient := STXTransferParams.recipient params in
  let amount := STXTransferParams.amount params in
  let fee := STXTransferParams.fee params in
  let memo := STXTransferParams.memo params in
  let network := STXTransferParams.network params ?? TurnkeySigner.network this in
  if negb (validateStacksAddress recipient) then
    reject (Error ("Invalid recipient Stacks address: " ++ recipient))
  else if (amount <=? 0)%Z then
    reject (Error "Amount must be greater than 0")
  else
    let senderAddress := getAddress this (Some network) in
    nonce <- match STXTransferParams.nonce params with
             | Some n => resolve n
             | None => fetchNonce senderAddress network
             end ;;
    let txFee := fee ?? DEFAULT_FEE in
    transaction <- settled (makeUnsignedSTXTokenTransfer
      {| UnsignedTokenTransferOptions.recipient := recipient;
         UnsignedTokenTransferOptions.amount := amount;
         UnsignedTokenTransferOptions.publicKey :=
           TurnkeySigner.compressedPublicKey this;
         UnsignedTokenTransferOptions.nonce := nonce;
         UnsignedTokenTransferOptions.fee := txFee;
         UnsignedTokenTransferOptions.network := network;
         UnsignedTokenTransferOptions.memo := memo |}) ;;
    let preSignHash :=
      sigHashPreSign (sigHash transaction) (authType transaction)
        (spendingCondition_fee transaction)
        (spendingCondition_nonce transaction) in
    signature <- signHash this preSignHash ;;
    v <- settled (normalizeRecoveryByte (RawSignature.v signature)) ;;
    let r := padStart (RawSignature.r signature) 64 "0" in
    let s := padStart (RawSignature.s signature) 64 "0" in
    let vrs := v ++ r ++ s in
    if negb (String.length vrs =? 130)%nat then
      reject (Error (signatureLengthMessage (String.length vrs)))
    else
      messageSignature <- settled (createMessageSignature vrs) ;;
      resolve {| SignedTransactionResult.transaction :=
                   setSignature transaction messageSignature;
                 SignedTransactionResult.senderAddress := senderAddress;
                 SignedTransactionResult.nonce := nonce;
                 SignedTransactionResult.fee := txFee |}.

(** [getAddressFromPublicKey(publicKey, network = "testnet")] *)
Definition getAddressFromPublicKey (publicKey : string)
  (network : option StacksNetworkType) : Outcome string :=
  match validateCompressedPublicKey publicKey with
  | inl e => inl e
  | inr cleaned => inr (publicKeyToAddress cleaned (network ?? testnet))
  end.

End Members.
End Shared.

(** ** src/src/index.ts *)

Module IndexTs.

(** lines 76-97; the [typeof] test cannot fail on a [string]. *)
Definition validateCompressedPublicKey (pubKeyHex : string) : Outcome string :=
  let cleaned :=
    if startsWith pubKeyHex "0x" then slice_from pubKeyHex 2 else pubKeyHex in
  if negb (String.length cleaned =? 66)%nat then
    throw (Error (keyLengthMessage (String.length cleaned)))
  else
    let prefix := slice cleaned 0 2 in
    if negb (String.eqb prefix "02") && negb (String.eqb prefix "03") then
      throw (Error (keyPrefixMessage prefix))
    else inr cleaned.

(** lines 306-315 *)
Definition signHash (this : TurnkeySigner.t) (hash : string)
  : Promise RawSignature.t :=
  signature <- await_signRawPayload (TurnkeySigner.client this)
    {| SignRawPayloadParams.organizationId := None;
       SignRawPayloadParams.signWith := TurnkeySigner.compressedPublicKey this;
       SignRawPayloadParams.payload := "0x" ++ hash;
       SignRawPayloadParams.encoding := "PAYLOAD_ENCODING_HEXADECIMAL";
       SignRawPayloadParams.hashFunction := "HASH_FUNCTION_NO_OP" |} ;;
  resolve {| RawSignature.v := RawSignature.v signature;
             RawSignature.r := RawSignature.r signature;
             RawSignature.s := RawSignature.s signature |}.

Definition constructor := Shared.constructor validateCompressedPublicKey.
Definition getAddress `{StacksTransactions} := Shared.getAddress.
Definition getPublicKey := Shared.getPublicKey.
Definition signSTXTransfer `{StacksTransactions} `{HostEnvironment} :=
  Shared.signSTXTransfer signHash.
Definition getAddressFromPublicKey `{StacksTransactions} :=
  Shared.getAddressFromPublicKey validateCompressedPublicKey.

End IndexTs.

(** ** src/unnamed/part_000 *)

Module Part000.

(** lines 89-110: the same, and lower-cased. *)
Definition validateCompressedPublicKey (pubKeyHex : string) : Outcome string :=
  let cleaned :=
    toLowerCase
      (if startsWith pubKeyHex "0x" then slice_from pubKeyHex 2 else pubKeyHex) in
  if negb (String.length cleaned =? 66)%nat then
    throw (Error (keyLengthMessage (String.length cleaned)))
  else
    let prefix := slice cleaned 0 2 in
    if negb (String.eqb prefix "02") && negb (String.eqb prefix "03") then
      throw (Error (keyPrefixMessage prefix))
    else inr cleaned.

Definition resourceNotFound : string :=
  "Could not find any resource to sign with".

(** The message of the error thrown at lines 342-351.  The dash of the
    placeholder is kept as the bytes of its UTF-8 encoding. *)
Definition signingKeyNotFoundMessage (this : TurnkeySigner.t) (message : string)
  : string :=
  "Turnkey could not find a signing key." ++ LF ++
  "  signWith (publicKey): " ++ TurnkeySigner.compressedPublicKey this ++ LF ++
  "  organizationId:      "
    ++ (TurnkeySigner.organizationId this ?? "(not set — using client session)")
    ++ LF ++ LF ++
  "Possible causes:" ++ LF ++
  "  1. If using server SDK: the organizationId may not match the org that owns the key." ++ LF ++
  "  2. If using browser client: ensure the user is authenticated and has a wallet." ++ LF ++
  "  3. The publicKey casing or format does not match what Turnkey has stored." ++ LF ++ LF ++
  "Original error: " ++ message.

(** lines 316-356.  [if (this.organizationId)] is false on [undefined] and
    on the empty string. *)
Definition signHash (this : TurnkeySigner.t) (hash : string)
  : Promise RawSignature.t :=
  try_catch
    (let request :=
       {| SignRawPayloadParams.organizationId := None;
          SignRawPayloadParams.signWith := TurnkeySigner.compressedPublicKey this;
          SignRawPayloadParams.payload := "0x" ++ hash;
          SignRawPayloadParams.encoding := "PAYLOAD_ENCODING_HEXADECIMAL";
          SignRawPayloadParams.hashFunction := "HASH_FUNCTION_NO_OP" |} in
     let request :=
       match TurnkeySigner.organizationId this with
       | Some id =>
           if String.eqb id "" then request
           else
             {| SignRawPayloadParams.organizationId := Some id;
                SignRawPayloadParams.signWith :=
                  SignRawPayloadParams.signWith request;
                SignRawPayloadParams.payload :=
                  SignRawPayloadParams.payload request;
                SignRawPayloadParams.encoding :=
                  SignRawPayloadParams.encoding request;
                SignRawPayloadParams.hashFunction :=
                  SignRawPayloadParams.hashFunction request |}
       | None => request
       end in
     signature <- await_signRawPayload (TurnkeySigner.client this) request ;;
     resolve {| RawSignature.v := RawSignature.v signature;
                RawSignature.r := RawSignature.r signature;
                RawSignature.s := RawSignature.s signature |})
    (fun error =>
       let message := messageOf error in
       if includes message resourceNotFound then
         reject (Error (signingKeyNotFoundMessage this message))
       else reject error).

Definition constructor := Shared.constructor validateCompressedPublicKey.
Definition getAddress `{StacksTransactions} := Shared.getAddress.
Definition getPublicKey := Shared.getPublicKey.
Definition signSTXTransfer `{StacksTransactions} `{HostEnvironment} :=
  Shared.signSTXTransfer signHash.
Definition getAddressFromPublicKey `{StacksTransactions} :=
  Shared.getAddressFromPublicKey validateCompressedPublicKey.

End Part000.

(** ** The two revisions side by side *)

Inductive Revision : Type :=
| src_index_ts   (** src/src/index.ts *)
| part_000.      (** src/unnamed/part_000 *)

Definition validateCompressedPublicKey_of (rev : Revision)
  : string -> Outcome string :=
  match rev with
  | src_index_ts => IndexTs.validateCompressedPublicKey
  | part_000 => Part000.validateCompressedPublicKey
  end.

Definition signHash_of (rev : Revision)
  : TurnkeySigner.t -> string -> Promise RawSignature.t :=
  match rev with
  | src_index_ts => IndexTs.signHash
  | part_000 => Part000.signHash
  end.

Definition constructor_of (rev : Revision)
  : TurnkeySignerConfig.t -> Outcome TurnkeySigner.t :=
  match rev with
  | src_index_ts => IndexTs.constructor
  | part_000 => Part000.constructor
  end.

Definition signSTXTransfer_of `{StacksTransactions} `{HostEnvironment}
  (rev : Revision)
  : TurnkeySigner.t -> STXTransferParams.t ->
    Promise (SignedTransactionResult.t StacksTransactionWire) :=
  match rev with
  | src_index_ts => IndexTs.signSTXTransfer
  | part_000 => Part000.signSTXTransfer
  end.

Definition getAddressFromPublicKey_of `{StacksTransactions} (rev : Revision)
  : string -> option StacksNetworkType -> Outcome string :=
  match rev with
  | src_index_ts => IndexTs.getAddressFromPublicKey
  | part_000 => Part000.getAddressFromPublicKey
  end.

(** ** Address derivation *)

(** The address codec.  [publicKeyToAddress] belongs to @stacks/transactions,
    which index.ts imports and src/ does not hold; it is modelled from
    section 4.2 of the specification: the hash160 of the key, a version byte
    chosen by the network for a single-signature account, a checksum, the
    c32check encoding, and the address-family marker in front.  The hash, the
    checksum and the base-32 body stay variables of the section; the version
    bytes (22 on mainnet, 26 on testnet) and the c32 alphabet are the
    constants of the chain, which give the "SP" and "ST" that the doc
    comments and the tests of index.ts expect. *)
Module AddressCodec.
Section Codec.

Variable hash160 : string -> string.
Variable c32checksum : nat -> string -> string.
Variable c32encode : string -> string.

(** Modelled from the spec: the alphabet of the c32 encoding. *)
Definition c32 : string := "0123456789ABCDEFGHJKMNPQRSTVWXYZ".

(** Modelled from the spec: the version byte of a single-signature address,
    by network. *)
Definition AddressVersion (network : StacksNetworkType) : nat :=
  match network with
  | mainnet => 22
  | testnet => 26
  end.

(** Modelled from the spec: the character that stands for a version below
    32. *)
Definition versionChar (version : nat) : string :=
  substring version 1 c32.

(** Modelled from the spec: the version character, then the base-32 body of
    the data and its checksum. *)
Definition c32checkEncode (version : nat) (data : string) : string :=
  versionChar version ++ c32encode (data ++ c32checksum version data).

(** Modelled from the spec: the marker of the address family in front. *)
Definition c32address (version : nat) (hash160hex : string) : string :=
  "S" ++ c32checkEncode version hash160hex.

(** Modelled from the spec: [publicKeyToAddress(publicKey, network)] of
    @stacks/transactions, absent from src/. *)
Definition publicKeyToAddress (publicKey : string) (network : StacksNetworkType)
  : string :=
  c32address (AddressVersion network) (hash160 publicKey).

End Codec.
End AddressCodec.

(** ** Vocabulary for the statements about [signSTXTransfer] *)

Section Anatomy.

Context `{StacksTransactions} `{HostEnvironment}.

(** [params.network ?? this.network] *)
Definition networkOf (this : TurnkeySigner.t) (params : STXTransferParams.t)
  : StacksNetworkType :=
  STXTransferParams.network params ?? TurnkeySigner.network this.

(** The address whose nonce is fetched, and the URL of the request. *)
Definition senderOf (this : TurnkeySigner.t) (params : STXTransferParams.t)
  : string :=
  Shared.getAddress this (Some (networkOf this params)).

Definition nonceUrl (this : TurnkeySigner.t) (params : STXTransferParams.t)
  : string :=
  API_ENDPOINTS (networkOf this params) ++ "/extended/v1/address/"
  ++ senderOf this params ++ "/nonces".

(** The options that [signSTXTransfer] hands to the builder once the
    nonce is known. *)
Definition transferOptions (this : TurnkeySigner.t)
  (params : STXTransferParams.t) (nonce : Z) : UnsignedTokenTransferOptions.t :=
  {| UnsignedTokenTransferOptions.recipient := STXTransferParams.recipient params;
     UnsignedTokenTransferOptions.amount := STXTransferParams.amount params;
     UnsignedTokenTransferOptions.publicKey :=
       TurnkeySigner.compressedPublicKey this;
     UnsignedTokenTransferOptions.nonce := nonce;
     UnsignedTokenTransferOptions.fee := STXTransferParams.fee params ?? DEFAULT_FEE;
     UnsignedTokenTransferOptions.network := networkOf this params;
     UnsignedTokenTransferOptions.memo := STXTransferParams.memo params |}.

(** The pre-sign hash of a built transaction. *)
Definition preSignHashOf (transaction : StacksTransactionWire) : string :=
  sigHashPreSign (sigHash transaction) (authType transaction)
    (spendingCondition_fee transaction) (spendingCondition_nonce transaction).

(** [params.nonce ?? (await this.fetchNonce(senderAddress, network))] *)
Definition resolveNonce (this : TurnkeySigner.t) (params : STXTransferParams.t)
  : Promise Z :=
  match STXTransferParams.nonce params with
  | Some n => resolve n
  | None => Shared.fetchNonce (senderOf this params) (networkOf this params)
  end.

(** The 130 characters [v || r || s] of a raw signature whose recovery
    byte was normalised to [v]. *)
Definition vrsOf (v : string) (signature : RawSignature.t) : string :=
  v ++ padStart (RawSignature.r signature) 64 "0"
    ++ padStart (RawSignature.s signature) 64 "0".

(** What [signSTXTransfer] does with the raw signature it was given. *)
Definition attach (this : TurnkeySigner.t) (params : STXTransferParams.t)
  (nonce : Z) (transaction : StacksTransactionWire) (signature : RawSignature.t)
  : Outcome (SignedTransactionResult.t StacksTransactionWire) :=
  match normalizeRecoveryByte (RawSignature.v signature) with
  | inl e => inl e
  | inr v =>
      let vrs := vrsOf v signature in
      if negb (String.length vrs =? 130)%nat then
        inl (Error (signatureLengthMessage (String.length vrs)))
      else
        match createMessageSignature vrs with
        | inl e => inl e
        | inr messageSignature =>
            inr {| SignedTransactionResult.transaction :=
                     setSignature transaction messageSignature;
                   SignedTransactionResult.senderAddress := senderOf this params;
                   SignedTransactionResult.nonce := nonce;
                   SignedTransactionResult.fee :=
                     STXTransferParams.fee params ?? DEFAULT_FEE |}
        end
  end.

End Anatomy.

(** The request object that [signHash] builds. *)
Definition signingRequest (rev : Revision) (this : TurnkeySigner.t) (hash : string)
  : SignRawPayloadParams.t :=
  {| SignRawPayloadParams.organizationId :=
       match rev with
       | src_index_ts => None
       | part_000 =>
           match TurnkeySigner.organizationId this with
           | Some id => if String.eqb id "" then None else Some id
           | None => None
           end
       end;
     SignRawPayloadParams.signWith := TurnkeySigner.compressedPublicKey this;
     SignRawPayloadParams.payload := "0x" ++ hash;
     SignRawPayloadParams.encoding := "PAYLOAD_ENCODING_HEXADECIMAL";
     SignRawPayloadParams.hashFunction := "HASH_FUNCTION_NO_OP" |}.

(** What leaves [signHash] when the client rejects with [error]. *)
Definition rethrown (rev : Revision) (this : TurnkeySigner.t) (error : Thrown)
  : Thrown :=
  match rev with
  | src_index_ts => error
  | part_000 =>
      if includes (messageOf error) Part000.resourceNotFound then
        Error (Part000.signingKeyNotFoundMessage this (messageOf error))
      else error
  end.

(** How a run ends on the answer of the client to the signing request. *)
Definition concluded `{StacksTransactions} `{HostEnvironment} (rev : Revision)
  (this : TurnkeySigner.t) (params : STXTransferParams.t) (nonce : Z)
  (transaction : StacksTransactionWire) (answer : Outcome RawSignature.t)
  : Outcome (SignedTransactionResult.t StacksTransactionWire) :=
  match answer with
  | inl error => inl (rethrown rev this error)
  | inr signature => attach this params nonce transaction signature
  end.

(** ** The error taxonomy, read off the messages *)

Module ErrorKind.

Definition hasPrefix (p : string) (e : Thrown) : bool :=
  match e with
  | Error message => startsWith message p
  | Value _ => false
  end.

Definition InvalidKeyFormat := hasPrefix "Invalid public key length".
Definition InvalidKeyPrefix := hasPrefix "Invalid public key prefix".
Definition InvalidRecipient := hasPrefix "Invalid recipient Stacks address".
Definition InvalidAmount := hasPrefix "Amount must be greater than 0".
Definition InvalidRecoveryByte := hasPrefix "Invalid recovery byte value".
Definition InvalidSignatureLength := hasPrefix "Invalid signature length".

End ErrorKind.

(** ** Key validation *)

(** The key once an optional [0x] is taken off. *)
Definition without0x (pubKeyHex : string) : string :=
  if startsWith pubKeyHex "0x" then slice_from pubKeyHex 2 else pubKeyHex.

(** The [cleaned] of each revision, and its leading byte. *)
Definition cleanedOf (rev : Revision) (pubKeyHex : string) : string :=
  match rev with
  | src_index_ts => without0x pubKeyHex
  | part_000 => toLowerCase (without0x pubKeyHex)
  end.

Definition leadingByte (rev : Revision) (pubKeyHex : string) : string :=
  slice (cleanedOf rev pubKeyHex) 0 2.

Fixpoint allChars (p : ascii -> bool) (s : string) : bool :=
  match s with
  | EmptyString => true
  | String c s' => p c && allChars p s'
  end.

Definition isLowerHexDigit (c : ascii) : bool :=
  let n := nat_of_ascii c in
  (((48 <=? n) && (n <=? 57)) || ((97 <=? n) && (n <=? 102)))%nat.

Definition isHexDigit (c : ascii) : bool :=
  isLowerHexDigit c || ((65 <=? nat_of_ascii c) && (nat_of_ascii c <=? 70))%nat.

(** A compressed key as a caller may write it: 66 hexadecimal digits of
    either case after an optional [0x], the first byte 02 or 03. *)
Definition validKeyInput (pubKeyHex : string) : Prop :=
  String.length (without0x pubKeyHex) = 66 /\
  allChars isHexDigit (without0x pubKeyHex) = true /\
  (slice (without0x pubKeyHex) 0 2 = "02" \/ slice (without0x pubKeyHex) 0 2 = "03").

(** The canonical form: 66 lower-case hexadecimal digits, no [0x], the
    first byte 02 or 03. *)
Definition canonicalKey (key : string) : Prop :=
  String.length key = 66 /\
  allChars isLowerHexDigit key = true /\
  startsWith key "0x" = false /\
  (slice key 0 2 = "02" \/ slice key 0 2 = "03").

Definition recoveryByteMessage (v : string) : string :=
  "Invalid recovery byte value: " ++ v ++ " (expected 0 or 1)".


(** ** The ways of a run *)

Section RunCases.

Context `{StacksTransactions} `{HostEnvironment}.

(** The three ways a run can go once the guards are passed. *)
Inductive Run (rev : Revision) (this : TurnkeySigner.t)
  (params : STXTransferParams.t) : Prop :=
| NoNonce cs e :
    resolveNonce this params = (cs, inl e) ->
    signSTXTransfer_of rev this params = (cs, inl e) ->
    Run rev this params
| NoTransaction cs nonce e :
    resolveNonce this params = (cs, inr nonce) ->
    makeUnsignedSTXTokenTransfer (transferOptions this params nonce) = inl e ->
    signSTXTransfer_of rev this params = (cs, inl e) ->
    Run rev this params
| Signing cs nonce transaction :
    resolveNonce this params = (cs, inr nonce) ->
    makeUnsignedSTXTokenTransfer (transferOptions this params nonce)
      = inr transaction ->
    signSTXTransfer_of rev this params =
    ((cs ++ [SignRawPayload (signingRequest rev this (preSignHashOf transaction))])%list,
     concluded rev this params nonce transaction
       (signRawPayload (TurnkeySigner.client this)
          (signingRequest rev this (preSignHashOf transaction)))) ->
    Run rev this params.

End RunCases.

(** ** A stub library, host and client

    The end-to-end scenarios run the pipeline against a stub of the
    delegated signer that returns a fixed (v, r, s); the stub below does the
    same for the transaction library and the nonce service. *)

Module Stub.

Record Transaction : Type := {
  options : UnsignedTokenTransferOptions.t;
  signature : option string
}.

Definition hash160 (publicKey : string) : string := slice publicKey 2 42.
Definition c32checksum (version : nat) (data : string) : string := "00000000".
Definition c32encode (data : string) : string := data.

Definition knownRecipient : string := "ST20J4GKB8W7KKA8B0KZ3J7G330DZ1WEWYXJKD4PV".

Definition digest : string :=
  "9f86d081884c7d659a2feaa0c55ad015a3bf4f1b2b0b822cd15d6c15b0f00a08".

Definition library : StacksTransactions :=
  {| StacksTransactionWire := Transaction;
     MessageSignatureWire := string;
     AuthType := unit;
     validateStacksAddress := fun address => String.eqb address knownRecipient;
     publicKeyToAddress :=
       AddressCodec.publicKeyToAddress hash160 c32checksum c32encode;
     makeUnsignedSTXTokenTransfer :=
       fun o => inr {| options := o; signature := None |};
     sigHash := fun _ => digest;
     authType := fun _ => tt;
     spendingCondition_fee :=
       fun transaction => UnsignedTokenTransferOptions.fee (options transaction);
     spendingCondition_nonce :=
       fun transaction => UnsignedTokenTransferOptions.nonce (options transaction);
     sigHashPreSign := fun hash _ _ _ => hash;
     createMessageSignature := fun vrs => inr vrs;
     setSignature :=
       fun transaction vrs =>
         {| options := options transaction; signature := Some vrs |} |}.

(** A nonce service that answers 200 with a body without
    [possible_next_nonce]. *)
Definition host : HostEnvironment :=
  {| fetch := fun _ =>
       inr {| Response.status := 200;
              Response.statusText := "OK";
              Response.json := inr {| NonceResponse.possible_next_nonce := None |} |} |}.

Definition fixedSignature : RawSignature.t :=
  {| RawSignature.v := "01"; RawSignature.r := "1f2e"; RawSignature.s := "3d4c5b" |}.

Definition client : TurnkeySignerClient :=
  {| signRawPayload := fun _ => inr fixedSignature |}.

(** A client whose recovery byte is out of range. *)
Definition badRecoveryClient : TurnkeySignerClient :=
  {| signRawPayload := fun _ =>
       inr {| RawSignature.v := "1b"; RawSignature.r := "1f2e";
              RawSignature.s := "3d4c5b" |} |}.

(** A client that does not find the key. *)
Definition rejectingClient : TurnkeySignerClient :=
  {| signRawPayload := fun _ =>
       inl (Error "Could not find any resource to sign with") |}.

Definition key : string :=
  "025afa6566651f6c49d84a482a1af918b25ba7caac0b06d9ab8d79a45b72715aeb".

Definition upperCaseKey : string :=
  "025AFA6566651F6C49D84A482A1AF918B25BA7CAAC0B06D9AB8D79A45B72715AEB".

Definition config (c : TurnkeySignerClient) (publicKey : string)
  : TurnkeySignerConfig.t :=
  {| TurnkeySignerConfig.client := c;
     TurnkeySignerConfig.publicKey := publicKey;
     TurnkeySignerConfig.organizationId := Some "org-123";
     TurnkeySignerConfig.network := Some testnet |}.

Definition signer (c : TurnkeySignerClient) (publicKey : string)
  : TurnkeySigner.t :=
  {| TurnkeySigner.client := c;
     TurnkeySigner.organizationId := Some "org-123";
     TurnkeySigner.network := testnet;
     TurnkeySigner.compressedPublicKey := publicKey |}.

Definition transfer (recipient : string) (amount : Z) (nonce fee : option Z)
  : STXTransferParams.t :=
  {| STXTransferParams.recipient := recipient;
     STXTransferParams.amount := amount;
     STXTransferParams.nonce := nonce;
     STXTransferParams.fee := fee;
     STXTransferParams.memo := None;
     STXTransferParams.network := None |}.

End Stub.


(** ** Broadcasting *)

(** What [stacksBroadcastTransaction] resolves with, as far as
    [broadcastTransaction] tells its values apart: a string; an object that
    is truthy and has a [txid] property (a string by its type; nothing else
    of the object is read); or anything else, kept as the text that
    [JSON.stringify] gives for it inside the template literal. *)
Inductive BroadcastReply : Type :=
| ReplyString (txid : string)
| ReplyWithTxid (txid : string)
| ReplyOther (json : string).

(** [broadcastTransaction] of @stacks/transactions, imported as
    [stacksBroadcastTransaction]: a call that leaves the process, and
    resolves or rejects. *)
Class StacksBroadcast (lib : StacksTransactions) : Type := {
  stacksBroadcastTransaction :
    StacksTransactionWire -> StacksNetworkType -> Outcome BroadcastReply
}.

Module BroadcastResult.
Record t : Type := {
  txid : string;
  senderAddress : string;
  recipient : string;
  amount : Z
}.
End BroadcastResult.

Section Broadcasting.

Context `{lib : StacksTransactions} `{host : HostEnvironment}
  `{node : !StacksBroadcast lib}.

(** What leaves the process during a sign-and-broadcast: the calls of the
    signer, and the broadcast. *)
Inductive Activity : Type :=
| BySigner (call : Call)
| BroadcastTransaction (transaction : StacksTransactionWire)
    (network : StacksNetworkType).

(** A promise of the broadcasting functions: the activities, oldest first,
    and how it settled. *)
Definition Task (A : Type) : Type := (list Activity * Outcome A)%type.

Definition andThen {A B : Type} (m : Task A) (k : A -> Task B) : Task B :=
  match m with
  | (done, inl e) => (done, inl e)
  | (done, inr a) => let (more, o) := k a in ((done ++ more)%list, o)
  end.

(** [await signer.signSTXTransfer(params)] inside a broadcasting function. *)
Definition ofSigner {A : Type} (p : Promise A) : Task A :=
  (map BySigner (calls p), outcome p).

(** [await stacksBroadcastTransaction({ transaction, network })] *)
Definition await_stacksBroadcastTransaction
  (transaction : StacksTransactionWire) (network : StacksNetworkType)
  : Task BroadcastReply :=
  ([BroadcastTransaction transaction network],
   stacksBroadcastTransaction transaction network).

(** [broadcastTransaction(transaction, network = "testnet")]
    (src/src/index.ts 364-383, part_000 405-424) *)
Definition broadcastTransaction (transaction : StacksTransactionWire)
  (network : option StacksNetworkType) : Task string :=
  let network := network ?? testnet in
  andThen (await_stacksBroadcastTransaction transaction network)
    (fun result =>
       match result with
       | ReplyString txid => ([], inr txid)
       | ReplyWithTxid txid => ([], inr txid)
       | ReplyOther json => ([], inl (Error ("Broadcast failed: " ++ json)))
       end).

(** [signAndBroadcastSTXTransfer(signer, params)]
    (src/src/index.ts 406-419, part_000 447-460); [signer.signSTXTransfer]
    is the method of the revision. *)
Definition signAndBroadcastSTXTransfer_of (rev : Revision)
  (signer : TurnkeySigner.t) (params : STXTransferParams.t)
  : Task BroadcastResult.t :=
  andThen (ofSigner (signSTXTransfer_of rev signer params))
    (fun signed =>
       andThen
         (broadcastTransaction (SignedTransactionResult.transaction signed)
            (Some (STXTransferParams.network params
                   ?? TurnkeySigner.network signer)))
         (fun txid =>
            ([], inr {| BroadcastResult.txid := txid;
                        BroadcastResult.senderAddress :=
                          SignedTransactionResult.senderAddress signed;
                        BroadcastResult.recipient :=
                          STXTransferParams.recipient params;
                        BroadcastResult.amount :=
                          STXTransferParams.amount params |}))).

End Broadcasting.

(** A stub node for the broadcast: it answers with an object that holds
    the txid, with a bare string on mainnet. *)
Definition stubNode : StacksBroadcast Stub.library :=
  {| stacksBroadcastTransaction := fun _ network =>
       match network with
       | testnet => inr (ReplyWithTxid "0xabc123")
       | mainnet => inr (ReplyString "0xdef456")
       end |}.

(** A stub node that answers with neither shape. *)
Definition stubRejectingNode : StacksBroadcast Stub.library :=
  {| stacksBroadcastTransaction := fun _ _ =>
       inr (ReplyOther "null") |}.

(** The stub library with a builder that refuses a memo of more than 34
    characters. *)
Definition memoCheckingLibrary : StacksTransactions :=
  {| StacksTransactionWire := Stub.Transaction;
     MessageSignatureWire := string;
     AuthType := unit;
     validateStacksAddress := @validateStacksAddress Stub.library;
     publicKeyToAddress := @publicKeyToAddress Stub.library;
     makeUnsignedSTXTokenTransfer :=
       fun o =>
         if (34 <? String.length (UnsignedTokenTransferOptions.memo o ?? ""))%nat
         then inl (Error "Memo exceeds maximum length of 34 bytes")
         else inr {| Stub.options := o; Stub.signature := None |};
     sigHash := @sigHash Stub.library;
     authType := @authType Stub.library;
     spendingCondition_fee := @spendingCondition_fee Stub.library;
     spendingCondition_nonce := @spendingCondition_nonce Stub.library;
     sigHashPreSign := @sigHashPreSign Stub.library;
     createMessageSignature := @createMessageSignature Stub.library;
     setSignature := @setSignature Stub.library |}.

Definition longMemoTransfer : STXTransferParams.t :=
  {| STXTransferParams.recipient := Stub.knownRecipient;
     STXTransferParams.amount := 1000000;
     STXTransferParams.nonce := Some 5%Z;
     STXTransferParams.fee := None;
     STXTransferParams.memo := Some "a memo that is longer than thirty-four bytes";
     STXTransferParams.network := None |}.

(** A signer on mainnet with a given organization id, or none. *)
Definition sessionSigner (c : TurnkeySignerClient) (id : option string)
  : TurnkeySigner.t :=
  {| TurnkeySigner.client := c;
     TurnkeySigner.organizationId := id;
     TurnkeySigner.network := mainnet;
     TurnkeySigner.compressedPublicKey := Stub.key |}.

(** ** Vocabulary of the statements over inputs *)

(** A code unit of the ASCII range.  Lower-casing a string of such code
    units keeps its length, in JavaScript as in [toLowerCase] here. *)
Definition isAscii (c : ascii) : bool := (nat_of_ascii c <? 128)%nat.

(** How [signSTXTransfer] comes by its nonce
    ([params.nonce ?? (await this.fetchNonce(senderAddress, network))]):
    [nonce] is the caller's and no call was made, or [fetchNonce] on the
    sender address resolved with it after the calls [cs]. *)
Definition nonceResolved `{StacksTransactions} `{HostEnvironment}
  (this : TurnkeySigner.t) (params : STXTransferParams.t)
  (cs : list Call) (nonce : Z) : Prop :=
  let network :=
    STXTransferParams.network params ?? TurnkeySigner.network this in
  match STXTransferParams.nonce params with
  | Some n => cs = [] /\ nonce = n
  | None =>
      Shared.fetchNonce (Shared.getAddress this (Some network)) network
      = (cs, inr nonce)
  end.

(** A nonce service that is down. *)
Definition unavailableHost : HostEnvironment :=
  {| fetch := fun _ =>
       inr {| Response.status := 503;
              Response.statusText := "Service Unavailable";
              Response.json := inl (Error "Unexpected end of JSON input") |} |}.

(** * Lemmas *)

(** ** Basic facts about strings *)

Lemma length_append (a b : string) :
  String.length (a ++ b) = String.length a + String.length b.
Proof.
  induction a as [| c a IH]; simpl; [reflexivity | now rewrite IH].
Qed.

Lemma length_toLowerCase (s : string) :
  String.length (toLowerCase s) = String.length s.
Proof.
  induction s as [| c s IH]; simpl; [reflexivity | now rewrite IH].
Qed.

Lemma length_filler (pad cur : string) (n : nat) :
  pad <> "" -> String.length (filler pad cur n) = n.
Proof.
  intros Hpad. revert cur.
  induction n as [| n IH]; intros cur; simpl; [reflexivity |].
  destruct cur as [| c rest]; simpl.
  - destruct pad as [| c rest]; [congruence | simpl; now rewrite IH].
  - now rewrite IH.
Qed.

Lemma padStart_short (s : string) (n : nat) :
  String.length s <= n -> String.length (padStart s n "0") = n.
Proof.
  intros Hle. unfold padStart.
  destruct (Nat.leb n (String.length s)) eqn:E.
  - apply Nat.leb_le in E. lia.
  - apply Nat.leb_gt in E. simpl String.eqb. cbv iota.
    rewrite length_append, length_filler by discriminate. lia.
Qed.

Lemma padStart_long (s : string) (n : nat) (pad : string) :
  n <= String.length s -> padStart s n pad = s.
Proof.
  intros Hle. unfold padStart.
  apply Nat.leb_le in Hle. now rewrite Hle.
Qed.

Lemma prefix_append (p rest : string) : String.prefix p (p ++ rest) = true.
Proof.
  induction p as [| c p IH]; simpl.
  - now destruct rest.
  - destruct (Ascii.ascii_dec c c); [exact IH | congruence].
Qed.

Lemma includes_here (sub rest : string) : includes (sub ++ rest) sub = true.
Proof.
  pose proof (prefix_append sub rest) as Hp.
  destruct (sub ++ rest) as [| c t]; cbn [includes]; now rewrite Hp.
Qed.

Lemma includes_skip (a t sub : string) :
  includes t sub = true -> includes (a ++ t) sub = true.
Proof.
  intros Ht. induction a as [| c a IH]; simpl; [exact Ht |].
  rewrite IH. apply orb_true_r.
Qed.

Lemma prefix_refl (s : string) : String.prefix s s = true.
Proof.
  induction s as [| c s IH]; simpl; [reflexivity |].
  destruct (Ascii.ascii_dec c c); [exact IH | congruence].
Qed.

Lemma includes_refl (s : string) : includes s s = true.
Proof.
  destruct s as [| c s]; cbn [includes]; [reflexivity |].
  now rewrite prefix_refl.
Qed.

Lemma padStart_length_ge (s : string) (n : nat) :
  n <= String.length (padStart s n "0") /\
  String.length s <= String.length (padStart s n "0").
Proof.
  destruct (Nat.le_gt_cases (String.length s) n) as [Hle | Hgt].
  - rewrite padStart_short by exact Hle. lia.
  - rewrite padStart_long by lia. lia.
Qed.

(** ** Key validation: lemmas *)

Lemma cleanedOf_length (rev : Revision) (pubKeyHex : string) :
  String.length (cleanedOf rev pubKeyHex) = String.length (without0x pubKeyHex).
Proof.
  destruct rev; simpl; [reflexivity | apply length_toLowerCase].
Qed.

Lemma validateCompressedPublicKey_of_eq (rev : Revision) (pubKeyHex : string) :
  validateCompressedPublicKey_of rev pubKeyHex =
  let cleaned := cleanedOf rev pubKeyHex in
  if negb (String.length cleaned =? 66)%nat then
    inl (Error (keyLengthMessage (String.length cleaned)))
  else if negb (String.eqb (slice cleaned 0 2) "02")
          && negb (String.eqb (slice cleaned 0 2) "03") then
    inl (Error (keyPrefixMessage (slice cleaned 0 2)))
  else inr cleaned.
Proof.
  destruct rev; reflexivity.
Qed.

Lemma validate_wrong_length (rev : Revision) (pubKeyHex : string) :
  String.length (without0x pubKeyHex) <> 66 ->
  validateCompressedPublicKey_of rev pubKeyHex =
  inl (Error (keyLengthMessage (String.length (without0x pubKeyHex)))).
Proof.
  intros Hlen. rewrite validateCompressedPublicKey_of_eq. cbv zeta.
  rewrite cleanedOf_length.
  apply Nat.eqb_neq in Hlen. now rewrite Hlen.
Qed.

Lemma validate_wrong_prefix (rev : Revision) (pubKeyHex : string) :
  String.length (without0x pubKeyHex) = 66 ->
  leadingByte rev pubKeyHex <> "02" ->
  leadingByte rev pubKeyHex <> "03" ->
  validateCompressedPublicKey_of rev pubKeyHex =
  inl (Error (keyPrefixMessage (leadingByte rev pubKeyHex))).
Proof.
  intros Hlen H02 H03. rewrite validateCompressedPublicKey_of_eq. cbv zeta.
  rewrite cleanedOf_length. apply Nat.eqb_eq in Hlen. rewrite Hlen.
  unfold leadingByte in *.
  apply String.eqb_neq in H02, H03. now rewrite H02, H03.
Qed.

Lemma validate_accepts (rev : Revision) (pubKeyHex : string) :
  String.length (without0x pubKeyHex) = 66 ->
  leadingByte rev pubKeyHex = "02" \/ leadingByte rev pubKeyHex = "03" ->
  validateCompressedPublicKey_of rev pubKeyHex = inr (cleanedOf rev pubKeyHex).
Proof.
  intros Hlen Hlead. rewrite validateCompressedPublicKey_of_eq. cbv zeta.
  rewrite cleanedOf_length. apply Nat.eqb_eq in Hlen. rewrite Hlen.
  unfold leadingByte in Hlead.
  destruct Hlead as [-> | ->]; reflexivity.
Qed.

(** What an accepted key looks like, in either revision. *)
Lemma validate_inr (rev : Revision) (pubKeyHex key : string) :
  validateCompressedPublicKey_of rev pubKeyHex = inr key ->
  key = cleanedOf rev pubKeyHex /\ String.length key = 66 /\
  (slice key 0 2 = "02" \/ slice key 0 2 = "03").
Proof.
  rewrite validateCompressedPublicKey_of_eq. cbv zeta.
  destruct (String.length (cleanedOf rev pubKeyHex) =? 66)%nat eqn:Hlen;
    simpl; [| discriminate].
  destruct (String.eqb_spec (slice (cleanedOf rev pubKeyHex) 0 2) "02") as [E2 | N2];
    simpl.
  - intros [= <-]. apply Nat.eqb_eq in Hlen. auto.
  - destruct (String.eqb_spec (slice (cleanedOf rev pubKeyHex) 0 2) "03") as [E3 | N3];
      simpl; [| discriminate].
    intros [= <-]. apply Nat.eqb_eq in Hlen. auto.
Qed.

Lemma keyLengthMessage_kind (n : nat) :
  ErrorKind.InvalidKeyFormat (Error (keyLengthMessage n)) = true /\
  ErrorKind.InvalidKeyPrefix (Error (keyLengthMessage n)) = false.
Proof.
  split; reflexivity.
Qed.

Lemma keyPrefixMessage_kind (p : string) :
  ErrorKind.InvalidKeyPrefix (Error (keyPrefixMessage p)) = true /\
  ErrorKind.InvalidKeyFormat (Error (keyPrefixMessage p)) = false.
Proof.
  split; reflexivity.
Qed.

Lemma toLowerCase_hex_char (c : ascii) :
  isHexDigit c = true -> isLowerHexDigit (toLowerCase_char c) = true.
Proof.
  destruct c as [[] [] [] [] [] [] [] []]; vm_compute; congruence.
Qed.

Lemma toLowerCase_hex (s : string) :
  allChars isHexDigit s = true -> allChars isLowerHexDigit (toLowerCase s) = true.
Proof.
  induction s as [| c s IH]; simpl; [reflexivity |].
  intros Hc. apply andb_true_iff in Hc as [Hc Hs].
  now rewrite toLowerCase_hex_char, IH.
Qed.

Lemma toLowerCase_leading (s b : string) :
  slice s 0 2 = b -> slice (toLowerCase s) 0 2 = toLowerCase b.
Proof.
  intros <-. destruct s as [| c1 [| c2 [| c3 s]]]; reflexivity.
Qed.

Lemma not_0x_of_leading (key : string) :
  slice key 0 2 = "02" \/ slice key 0 2 = "03" -> startsWith key "0x" = false.
Proof.
  destruct key as [| c1 [| c2 [| c3 key]]]; intros [E | E]; try discriminate E;
    unfold slice in E; simpl in E; injection E as -> ->; reflexivity.
Qed.

(** Neither revision looks at the characters after the leading byte: 66
    characters that begin with 02 are accepted, hexadecimal or not. *)
Lemma validate_accepts_non_hex (rev : Revision) :
  validateCompressedPublicKey_of rev
    "02zzzzzzzzzzzzzzzzzzzzzzzzzzzzzzzzzzzzzzzzzzzzzzzzzzzzzzzzzzzzzzzz"
  = inr "02zzzzzzzzzzzzzzzzzzzzzzzzzzzzzzzzzzzzzzzzzzzzzzzzzzzzzzzzzzzzzzzz".
Proof.
  destruct rev; reflexivity.
Qed.

(** The later revision brings every well-formed key to its canonical form. *)
Lemma Part000_validate_canonical (pubKeyHex : string) :
  validKeyInput pubKeyHex ->
  Part000.validateCompressedPublicKey pubKeyHex =
    inr (toLowerCase (without0x pubKeyHex)) /\
  canonicalKey (toLowerCase (without0x pubKeyHex)).
Proof.
  intros (Hlen & Hhex & Hlead).
  assert (Hlow : slice (toLowerCase (without0x pubKeyHex)) 0 2 = "02" \/
                 slice (toLowerCase (without0x pubKeyHex)) 0 2 = "03").
  { destruct Hlead as [E | E]; apply toLowerCase_leading in E; auto. }
  split.
  - apply (validate_accepts part_000); assumption.
  - repeat split.
    + now rewrite length_toLowerCase.
    + now apply toLowerCase_hex.
    + now apply not_0x_of_leading.
    + exact Hlow.
Qed.

(** ** The recovery byte *)

(** [normalizeRecoveryByte] by the value that [parseInt] finds. *)
Lemma normalizeRecoveryByte_eq (v : string) :
  normalizeRecoveryByte v =
  match parseInt v 16 with
  | Int 0 => inr "00"
  | Int 1 => inr "01"
  | _ => inl (Error (recoveryByteMessage v))
  end.
Proof.
  unfold normalizeRecoveryByte, recoveryByteMessage.
  destruct (parseInt v 16) as [| [| [p | p |] | p]]; reflexivity.
Qed.

(** ** Promises: calls and outcomes of a sequence *)

Lemma bind_settled {A B : Type} (o : Outcome A) (k : A -> Promise B) :
  bind (settled o) k = match o with inl e => ([], inl e) | inr a => k a end.
Proof.
  unfold bind, settled. destruct o as [e | a]; [reflexivity |].
  now destruct (k a).
Qed.

Lemma bind_ext {A B : Type} (m : Promise A) (k k' : A -> Promise B) :
  (forall a, k a = k' a) -> bind m k = bind m k'.
Proof.
  intros Hk. destruct m as [cs [e | a]]; simpl; [reflexivity | now rewrite Hk].
Qed.

(** ** [signHash] in both revisions *)

(** One call to the client, with the request of the revision; the
    signature comes back as it is, an error as [rethrown] tells. *)
Lemma signHash_of_eq (rev : Revision) (this : TurnkeySigner.t) (hash : string) :
  signHash_of rev this hash =
  ([SignRawPayload (signingRequest rev this hash)],
   match signRawPayload (TurnkeySigner.client this) (signingRequest rev this hash) with
   | inl error => inl (rethrown rev this error)
   | inr signature => inr signature
   end).
Proof.
  destruct rev; simpl.
  - unfold IndexTs.signHash, await_signRawPayload, signingRequest, bind, resolve.
    destruct (signRawPayload _ _) as [e | [v r s]]; reflexivity.
  - unfold Part000.signHash, await_signRawPayload, signingRequest, try_catch,
      bind, resolve, reject.
    destruct (TurnkeySigner.organizationId this) as [id |].
    + destruct (String.eqb id ""); simpl;
        destruct (signRawPayload _ _) as [e | [v r s]]; simpl;
        try reflexivity;
        destruct (includes (messageOf e) Part000.resourceNotFound); reflexivity.
    + destruct (signRawPayload _ _) as [e | [v r s]]; simpl;
        try reflexivity;
        destruct (includes (messageOf e) Part000.resourceNotFound); reflexivity.
Qed.

(** ** [signSTXTransfer] step by step *)

Section Pipeline.

Context `{StacksTransactions} `{HostEnvironment}.

Lemma signSTXTransfer_of_eq (rev : Revision) (this : TurnkeySigner.t)
  (params : STXTransferParams.t) :
  signSTXTransfer_of rev this params =
  if negb (validateStacksAddress (STXTransferParams.recipient params)) then
    reject (Error ("Invalid recipient Stacks address: "
                   ++ STXTransferParams.recipient params))
  else if (STXTransferParams.amount params <=? 0)%Z then
    reject (Error "Amount must be greater than 0")
  else
    nonce <- resolveNonce this params ;;
    transaction <- settled (makeUnsignedSTXTokenTransfer
                              (transferOptions this params nonce)) ;;
    signature <- signHash_of rev this (preSignHashOf transaction) ;;
    settled (attach this params nonce transaction signature).
Proof.
  assert (Htail : forall nonce transaction signature,
    (v <- settled (normalizeRecoveryByte (RawSignature.v signature)) ;;
     let r := padStart (RawSignature.r signature) 64 "0" in
     let s := padStart (RawSignature.s signature) 64 "0" in
     let vrs := v ++ r ++ s in
     if negb (String.length vrs =? 130)%nat then
       reject (Error (signatureLengthMessage (String.length vrs)))
     else
       messageSignature <- settled (createMessageSignature vrs) ;;
       resolve {| SignedTransactionResult.transaction :=
                    setSignature transaction messageSignature;
                  SignedTransactionResult.senderAddress := senderOf this params;
                  SignedTransactionResult.nonce := nonce;
                  SignedTransactionResult.fee :=
                    STXTransferParams.fee params ?? DEFAULT_FEE |})
    = settled (attach this params nonce transaction signature)).
  { intros nonce transaction signature.
    unfold attach, bind, settled, vrsOf, reject, resolve.
    destruct (normalizeRecoveryByte _) as [e | v]; [reflexivity |].
    cbv zeta.
    destruct (negb _); [reflexivity |].
    destruct (createMessageSignature _); reflexivity. }
  destruct rev;
    unfold signSTXTransfer_of, signHash_of, IndexTs.signSTXTransfer,
      Part000.signSTXTransfer, Shared.signSTXTransfer;
    cbv zeta;
    (destruct (negb (validateStacksAddress _)); [reflexivity |]);
    (destruct (_ <=? 0)%Z; [reflexivity |]);
    (apply bind_ext; intros nonce);
    (apply bind_ext; intros transaction);
    (apply bind_ext; intros signature);
    apply Htail.
Qed.

End Pipeline.

Section Runs.

Context `{StacksTransactions} `{HostEnvironment}.

Variable rev : Revision.
Variable this : TurnkeySigner.t.
Variable params : STXTransferParams.t.

(** [fetchNonce]: one request, and the nonce read off the answer. *)
Lemma fetchNonce_eq (address : string) (network : StacksNetworkType) :
  Shared.fetchNonce address network =
  let url := API_ENDPOINTS network ++ "/extended/v1/address/" ++ address
             ++ "/nonces" in
  ([Fetch url],
   match fetch url with
   | inl e => inl e
   | inr res =>
       if negb (Response.ok res) then
         inl (Error ("Failed to fetch nonce: " ++ of_nat (Response.status res)
                     ++ " " ++ Response.statusText res))
       else
         match Response.json res with
         | inl e => inl e
         | inr data => inr (NonceResponse.possible_next_nonce data ?? 0%Z)
         end
   end).
Proof.
  unfold Shared.fetchNonce, await_fetch, bind, settled, reject, resolve.
  cbv zeta.
  destruct (fetch _) as [e | res]; [reflexivity |].
  destruct (negb (Response.ok res)); [reflexivity |].
  destruct (Response.json res); reflexivity.
Qed.

(** The calls of the nonce resolution: none when the caller gave the
    nonce, one fetch otherwise. *)
Lemma resolveNonce_calls :
  calls (resolveNonce this params) =
  match STXTransferParams.nonce params with
  | Some _ => []
  | None => [Fetch (nonceUrl this params)]
  end.
Proof.
  unfold resolveNonce.
  destruct (STXTransferParams.nonce params); [reflexivity |].
  now rewrite fetchNonce_eq.
Qed.

Lemma resolveNonce_supplied (n : Z) :
  STXTransferParams.nonce params = Some n ->
  resolveNonce this params = ([], inr n).
Proof.
  unfold resolveNonce. now intros ->.
Qed.

Hypothesis recipient_ok :
  validateStacksAddress (STXTransferParams.recipient params) = true.
Hypothesis amount_ok : (0 < STXTransferParams.amount params)%Z.

Lemma signSTXTransfer_past_guards :
  signSTXTransfer_of rev this params =
  nonce <- resolveNonce this params ;;
  transaction <- settled (makeUnsignedSTXTokenTransfer
                            (transferOptions this params nonce)) ;;
  signature <- signHash_of rev this (preSignHashOf transaction) ;;
  settled (attach this params nonce transaction signature).
Proof.
  rewrite signSTXTransfer_of_eq, recipient_ok. simpl negb. cbv iota.
  destruct (Z.leb_spec (STXTransferParams.amount params) 0); [lia | reflexivity].
Qed.

(** The nonce could not be had: the run ends there. *)
Lemma signSTXTransfer_no_nonce cs e :
  resolveNonce this params = (cs, inl e) ->
  signSTXTransfer_of rev this params = (cs, inl e).
Proof.
  intros Hn. rewrite signSTXTransfer_past_guards. now rewrite Hn.
Qed.

(** The builder threw: the run ends there. *)
Lemma signSTXTransfer_no_transaction cs nonce e :
  resolveNonce this params = (cs, inr nonce) ->
  makeUnsignedSTXTokenTransfer (transferOptions this params nonce) = inl e ->
  signSTXTransfer_of rev this params = (cs, inl e).
Proof.
  intros Hn Hb. rewrite signSTXTransfer_past_guards, Hn.
  unfold bind at 1. rewrite bind_settled, Hb. now rewrite app_nil_r.
Qed.

(** The transaction was built: one signing call follows, and the run ends
    with what [attach] makes of the signature. *)
Lemma signSTXTransfer_signing cs nonce transaction :
  resolveNonce this params = (cs, inr nonce) ->
  makeUnsignedSTXTokenTransfer (transferOptions this params nonce)
    = inr transaction ->
  let request := signingRequest rev this (preSignHashOf transaction) in
  signSTXTransfer_of rev this params =
  ((cs ++ [SignRawPayload request])%list,
   concluded rev this params nonce transaction
     (signRawPayload (TurnkeySigner.client this) request)).
Proof.
  intros Hn Hb request. rewrite signSTXTransfer_past_guards, Hn.
  unfold bind at 1. rewrite bind_settled, Hb, signHash_of_eq.
  fold request. unfold bind, settled, concluded.
  destruct (signRawPayload _ request); now rewrite ?app_nil_r.
Qed.

End Runs.

Section Reach.

Context `{StacksTransactions} `{HostEnvironment}.

Lemma run_cases (rev : Revision) (this : TurnkeySigner.t)
  (params : STXTransferParams.t) :
  validateStacksAddress (STXTransferParams.recipient params) = true ->
  (0 < STXTransferParams.amount params)%Z ->
  Run rev this params.
Proof.
  intros Hr Ha.
  destruct (resolveNonce this params) as [cs [e | nonce]] eqn:Hn.
  - eapply NoNonce; eauto using signSTXTransfer_no_nonce.
  - destruct (makeUnsignedSTXTokenTransfer (transferOptions this params nonce))
      as [e | transaction] eqn:Hb.
    + eapply NoTransaction; eauto using signSTXTransfer_no_transaction.
    + eapply Signing; eauto. now apply signSTXTransfer_signing.
Qed.

(** A run that is stopped by a guard makes no call. *)
Lemma guards_cases (rev : Revision) (this : TurnkeySigner.t)
  (params : STXTransferParams.t) :
  (validateStacksAddress (STXTransferParams.recipient params) = false /\
   signSTXTransfer_of rev this params =
     ([], inl (Error ("Invalid recipient Stacks address: "
                      ++ STXTransferParams.recipient params)))) \/
  (validateStacksAddress (STXTransferParams.recipient params) = true /\
   (STXTransferParams.amount params <= 0)%Z /\
   signSTXTransfer_of rev this params =
     ([], inl (Error "Amount must be greater than 0"))) \/
  (validateStacksAddress (STXTransferParams.recipient params) = true /\
   (0 < STXTransferParams.amount params)%Z).
Proof.
  rewrite signSTXTransfer_of_eq.
  destruct (validateStacksAddress _); simpl negb; cbv iota; [| now left].
  right. destruct (Z.leb_spec (STXTransferParams.amount params) 0); auto.
Qed.

Lemma resolveNonce_no_signing (this : TurnkeySigner.t)
  (params : STXTransferParams.t) cs o request :
  resolveNonce this params = (cs, o) -> ~ In (SignRawPayload request) cs.
Proof.
  intros Hn Hin.
  pose proof (resolveNonce_calls this params) as Hc.
  rewrite Hn in Hc. simpl in Hc. subst cs.
  destruct (STXTransferParams.nonce params); simpl in Hin;
    [tauto | destruct Hin as [E | []]; discriminate E].
Qed.

(** A signing call is made only on a built transaction, and it is the
    request of the revision for the pre-sign hash of that transaction. *)
Lemma signing_call_inv (rev : Revision) (this : TurnkeySigner.t)
  (params : STXTransferParams.t) (request : SignRawPayloadParams.t) :
  In (SignRawPayload request) (calls (signSTXTransfer_of rev this params)) ->
  validateStacksAddress (STXTransferParams.recipient params) = true /\
  (0 < STXTransferParams.amount params)%Z /\
  exists cs nonce transaction,
    resolveNonce this params = (cs, inr nonce) /\
    makeUnsignedSTXTokenTransfer (transferOptions this params nonce)
      = inr transaction /\
    request = signingRequest rev this (preSignHashOf transaction) /\
    signSTXTransfer_of rev this params =
    ((cs ++ [SignRawPayload request])%list,
     concluded rev this params nonce transaction
       (signRawPayload (TurnkeySigner.client this) request)).
Proof.
  intros Hin.
  destruct (guards_cases rev this params) as [[_ E] | [(_ & _ & E) | [Hr Ha]]];
    try (rewrite E in Hin; contradiction Hin).
  split; [exact Hr | split; [exact Ha |]].
  destruct (run_cases rev this params Hr Ha) as
    [cs e Hn E | cs nonce e Hn Hb E | cs nonce transaction Hn Hb E];
    rewrite E in Hin; unfold calls in Hin; simpl in Hin.
  - exfalso. eapply resolveNonce_no_signing; eauto.
  - exfalso. eapply resolveNonce_no_signing; eauto.
  - apply in_app_or in Hin as [Hin | [Hin | []]].
    + exfalso. eapply resolveNonce_no_signing; eauto.
    + injection Hin as <-. exists cs, nonce, transaction. auto.
Qed.

(** A run that succeeds went through signing. *)
Lemma success_inv (rev : Revision) (this : TurnkeySigner.t)
  (params : STXTransferParams.t) result :
  outcome (signSTXTransfer_of rev this params) = inr result ->
  exists cs nonce transaction signature,
    resolveNonce this params = (cs, inr nonce) /\
    makeUnsignedSTXTokenTransfer (transferOptions this params nonce)
      = inr transaction /\
    signRawPayload (TurnkeySigner.client this)
      (signingRequest rev this (preSignHashOf transaction)) = inr signature /\
    attach this params nonce transaction signature = inr result /\
    calls (signSTXTransfer_of rev this params) =
      (cs ++ [SignRawPayload (signingRequest rev this (preSignHashOf transaction))])%list.
Proof.
  intros Hok.
  destruct (guards_cases rev this params) as [[_ E] | [(_ & _ & E) | [Hr Ha]]];
    try (rewrite E in Hok; discriminate Hok).
  destruct (run_cases rev this params Hr Ha) as
    [cs e Hn E | cs nonce e Hn Hb E | cs nonce transaction Hn Hb E];
    rewrite E in Hok |- *; unfold outcome in Hok; simpl in Hok;
    try discriminate Hok.
  unfold concluded in Hok.
  destruct (signRawPayload _ _) as [e | signature] eqn:Hs; [discriminate Hok |].
  exists cs, nonce, transaction, signature. auto.
Qed.

End Reach.

(** ** The tests of the key validator *)

(** The two tests of the validator, on the string that it tests: [cleaned],
    which is the key without its 0x in src/src/index.ts and the lower-cased
    key without its 0x in the later revision.  Nothing is assumed of what
    lower-casing does to the length. *)
Lemma validate_cleaned_wrong_length (rev : Revision) (pubKeyHex : string) :
  String.length (cleanedOf rev pubKeyHex) <> 66 ->
  validateCompressedPublicKey_of rev pubKeyHex =
  inl (Error (keyLengthMessage (String.length (cleanedOf rev pubKeyHex)))).
Proof.
  intros Hlen. rewrite validateCompressedPublicKey_of_eq. cbv zeta.
  apply Nat.eqb_neq in Hlen. now rewrite Hlen.
Qed.

Lemma validate_cleaned_wrong_prefix (rev : Revision) (pubKeyHex : string) :
  String.length (cleanedOf rev pubKeyHex) = 66 ->
  leadingByte rev pubKeyHex <> "02" ->
  leadingByte rev pubKeyHex <> "03" ->
  validateCompressedPublicKey_of rev pubKeyHex =
  inl (Error (keyPrefixMessage (leadingByte rev pubKeyHex))).
Proof.
  intros Hlen H02 H03. rewrite validateCompressedPublicKey_of_eq. cbv zeta.
  apply Nat.eqb_eq in Hlen. rewrite Hlen.
  unfold leadingByte in *.
  apply String.eqb_neq in H02, H03. now rewrite H02, H03.
Qed.

(** ** The nonce of a call *)

Lemma nonceResolved_iff `{StacksTransactions} `{HostEnvironment}
  (this : TurnkeySigner.t) (params : STXTransferParams.t)
  (cs : list Call) (nonce : Z) :
  nonceResolved this params cs nonce <->
  resolveNonce this params = (cs, inr nonce).
Proof.
  unfold nonceResolved, resolveNonce, senderOf, networkOf, resolve. cbv zeta.
  destruct (STXTransferParams.nonce params) as [n |]; [| tauto].
  split; [intros [-> ->]; reflexivity | intros [= <- <-]; auto].
Qed.

(** * The properties of the specification *)

(** ** C1: the request sent to the delegated signer *)

(** C1.  On a signer made by the constructor, in either revision:
    (1) whenever [signSTXTransfer] calls the client's [signRawPayload], the
    request has [hashFunction] "HASH_FUNCTION_NO_OP", [encoding]
    "PAYLOAD_ENCODING_HEXADECIMAL", [signWith] the signer's public key, which
    is the key that [validateCompressedPublicKey] returned for the configured
    one, and [payload] "0x" followed by the pre-sign hash of the transaction
    of this call: the one that [makeUnsignedSTXTokenTransfer] built from the
    parameters and the nonce of the call, which is the caller's nonce or the
    one that [fetchNonce] resolved with; the request is the last call made
    and the only signing request, so that no signing request carries another
    hash mode or the hash of another transaction;
    (2) the step is reached, and such a request is made, whenever the guards
    are passed, the nonce is had and the builder returns a transaction. *)
Theorem C1_signing_request `{StacksTransactions} `{HostEnvironment}
  (rev : Revision) (config : TurnkeySignerConfig.t) (this : TurnkeySigner.t)
  (params : STXTransferParams.t) :
  constructor_of rev config = inr this ->
  (forall request,
     In (SignRawPayload request) (calls (signSTXTransfer_of rev this params)) ->
     SignRawPayloadParams.hashFunction request = "HASH_FUNCTION_NO_OP" /\
     SignRawPayloadParams.encoding request = "PAYLOAD_ENCODING_HEXADECIMAL" /\
     SignRawPayloadParams.signWith request = Shared.getPublicKey this /\
     validateCompressedPublicKey_of rev (TurnkeySignerConfig.publicKey config)
       = inr (SignRawPayloadParams.signWith request) /\
     exists cs nonce transaction,
       nonceResolved this params cs nonce /\
       resolveNonce this params = (cs, inr nonce) /\
       makeUnsignedSTXTokenTransfer
         {| UnsignedTokenTransferOptions.recipient :=
              STXTransferParams.recipient params;
            UnsignedTokenTransferOptions.amount :=
              STXTransferParams.amount params;
            UnsignedTokenTransferOptions.publicKey := Shared.getPublicKey this;
            UnsignedTokenTransferOptions.nonce := nonce;
            UnsignedTokenTransferOptions.fee :=
              STXTransferParams.fee params ?? DEFAULT_FEE;
            UnsignedTokenTransferOptions.network :=
              STXTransferParams.network params ?? TurnkeySigner.network this;
            UnsignedTokenTransferOptions.memo := STXTransferParams.memo params |}
         = inr transaction /\
       makeUnsignedSTXTokenTransfer (transferOptions this params nonce)
         = inr transaction /\
       SignRawPayloadParams.payload request =
         "0x" ++ sigHashPreSign (sigHash transaction) (authType transaction)
                   (spendingCondition_fee transaction)
                   (spendingCondition_nonce transaction) /\
       SignRawPayloadParams.payload request = "0x" ++ preSignHashOf transaction /\
       calls (signSTXTransfer_of rev this params)
         = (cs ++ [SignRawPayload request])%list /\
       forall request', ~ In (SignRawPayload request') cs) /\
  (forall cs nonce transaction,
     validateStacksAddress (STXTransferParams.recipient params) = true ->
     (0 < STXTransferParams.amount params)%Z ->
     nonceResolved this params cs nonce ->
     makeUnsignedSTXTokenTransfer (transferOptions this params nonce)
       = inr transaction ->
     exists request,
       calls (signSTXTransfer_of rev this params)
         = (cs ++ [SignRawPayload request])%list /\
       SignRawPayloadParams.hashFunction request = "HASH_FUNCTION_NO_OP" /\
       SignRawPayloadParams.encoding request = "PAYLOAD_ENCODING_HEXADECIMAL" /\
       SignRawPayloadParams.signWith request = Shared.getPublicKey this /\
       validateCompressedPublicKey_of rev (TurnkeySignerConfig.publicKey config)
         = inr (SignRawPayloadParams.signWith request) /\
       SignRawPayloadParams.payload request =
         "0x" ++ sigHashPreSign (sigHash transaction) (authType transaction)
                   (spendingCondition_fee transaction)
                   (spendingCondition_nonce transaction)).
Proof.
  intros Hnew.
  assert (Hkey : validateCompressedPublicKey_of rev
                   (TurnkeySignerConfig.publicKey config)
                 = inr (TurnkeySigner.compressedPublicKey this)).
  { destruct rev; unfold constructor_of, IndexTs.constructor,
      Part000.constructor, Shared.constructor in Hnew; simpl;
      destruct (_ (TurnkeySignerConfig.publicKey config)) as [e | cleaned];
      try discriminate Hnew; now injection Hnew as <-. }
  split.
  - intros request Hin.
    apply signing_call_inv in Hin
      as (_ & _ & cs & nonce & transaction & Hn & Hb & -> & E).
    repeat split; try reflexivity; [exact Hkey |].
    exists cs, nonce, transaction.
    split; [now apply nonceResolved_iff |].
    split; [exact Hn |].
    split; [exact Hb |].
    split; [exact Hb |].
    split; [reflexivity |].
    split; [reflexivity |].
    split; [now rewrite E |].
    intros request'. eapply resolveNonce_no_signing; eauto.
  - intros cs nonce transaction Hr Ha Hn Hb.
    apply nonceResolved_iff in Hn.
    pose proof (signSTXTransfer_signing rev this params Hr Ha cs nonce
                  transaction Hn Hb) as E.
    cbv zeta in E.
    exists (signingRequest rev this (preSignHashOf transaction)).
    rewrite E. repeat split; try reflexivity. exact Hkey.
Qed.

Lemma C1_signing_request_witness :
  let this := Stub.signer Stub.client Stub.key in
  let params := Stub.transfer Stub.knownRecipient 1000000 None (Some 200%Z) in
  let transaction :=
    {| Stub.options := transferOptions this params 0; Stub.signature := None |} in
  let run := fun rev : Revision =>
  exists request,
    calls (@signSTXTransfer_of Stub.library Stub.host rev this params)
      = [Fetch (@nonceUrl Stub.library this params); SignRawPayload request] /\
    SignRawPayloadParams.hashFunction request = "HASH_FUNCTION_NO_OP" /\
    SignRawPayloadParams.encoding request = "PAYLOAD_ENCODING_HEXADECIMAL" /\
    SignRawPayloadParams.signWith request = Stub.key /\
    SignRawPayloadParams.payload request = "0x" ++ Stub.digest /\
    forall request',
      In (SignRawPayload request')
         (calls (@signSTXTransfer_of Stub.library Stub.host rev this params)) ->
      SignRawPayloadParams.hashFunction request' = "HASH_FUNCTION_NO_OP" /\
      SignRawPayloadParams.payload request' = SignRawPayloadParams.payload request in
  run src_index_ts /\ run part_000.
Proof.
  intros this params transaction run.
  assert (Hrev : forall rev, run rev); [| split; apply Hrev].
  intros rev. unfold run.
  destruct (@C1_signing_request Stub.library Stub.host rev
              (Stub.config Stub.client
                 match rev with
                 | src_index_ts => Stub.key
                 | part_000 => "0x" ++ Stub.upperCaseKey
                 end)
              this params) as [Hany Hreach].
  - destruct rev; reflexivity.
  - destruct (Hreach [Fetch (@nonceUrl Stub.library this params)] 0%Z transaction)
      as (request & Hcalls & Hh & He & Hw & _ & Hp).
    + reflexivity.
    + reflexivity.
    + reflexivity.
    + reflexivity.
    + exists request. repeat split; try assumption.
      * apply (Hany request'); assumption.
      * destruct (Hany request' H) as (_ & _ & _ & _ & cs & nonce & tx
                                         & _ & _ & _ & _ & _ & _ & Hc & _).
        rewrite Hcalls in Hc.
        assert (L : last (cs ++ [SignRawPayload request'])
                      (SignRawPayload request) = SignRawPayload request')
          by apply last_last.
        rewrite <- Hc in L. simpl in L. now injection L as <-.
Defined.

(** ** C2: the assembled signature *)

(** C2.  Let the guards of [signSTXTransfer] be passed, the nonce be had
    (from the caller, or from [fetchNonce] after the calls [cs]), the builder
    return a transaction, and the client answer the signing request for that
    transaction with a raw signature whose [v] parses to 0 or 1.  Then, in
    either revision, the call makes that one signing request after [cs], and
    with [v] normalised to "00" or "01" and [r] and [s] left-padded with
    zeros to 64 characters, the string [v ++ r ++ s] has 130 characters
    whenever [r] and [s] have at most 64 each, and more than 130 when one of
    them is longer.  When it has 130 characters, it is this string, [v]
    first, that goes to [createMessageSignature], and the result is set as
    the signature of the built transaction, which is returned; when it has
    any other length, the call fails with the invalid-signature-length error
    and returns no transaction. *)
Theorem C2_signature_assembly `{StacksTransactions} `{HostEnvironment}
  (rev : Revision) (this : TurnkeySigner.t) (params : STXTransferParams.t)
  (cs : list Call) (nonce : Z) (transaction : StacksTransactionWire)
  (signature : RawSignature.t) :
  validateStacksAddress (STXTransferParams.recipient params) = true ->
  (0 < STXTransferParams.amount params)%Z ->
  nonceResolved this params cs nonce ->
  makeUnsignedSTXTokenTransfer (transferOptions this params nonce)
    = inr transaction ->
  signRawPayload (TurnkeySigner.client this)
    (signingRequest rev this (preSignHashOf transaction)) = inr signature ->
  parseInt (RawSignature.v signature) 16 = Int 0 \/
  parseInt (RawSignature.v signature) 16 = Int 1 ->
  exists v,
    (parseInt (RawSignature.v signature) 16 = Int 0 /\ v = "00" \/
     parseInt (RawSignature.v signature) 16 = Int 1 /\ v = "01") /\
    calls (signSTXTransfer_of rev this params) =
      (cs ++ [SignRawPayload (signingRequest rev this (preSignHashOf transaction))])%list /\
    let r := padStart (RawSignature.r signature) 64 "0" in
    let s := padStart (RawSignature.s signature) 64 "0" in
    let vrs := v ++ r ++ s in
    (String.length (RawSignature.r signature) <= 64 ->
     String.length (RawSignature.s signature) <= 64 ->
     String.length r = 64 /\ String.length s = 64 /\ String.length vrs = 130) /\
    (64 < String.length (RawSignature.r signature) \/
     64 < String.length (RawSignature.s signature) ->
     130 < String.length vrs) /\
    (String.length vrs = 130 ->
     outcome (signSTXTransfer_of rev this params) =
     match createMessageSignature vrs with
     | inl e => inl e
     | inr messageSignature =>
         inr {| SignedTransactionResult.transaction :=
                  setSignature transaction messageSignature;
                SignedTransactionResult.senderAddress := senderOf this params;
                SignedTransactionResult.nonce := nonce;
                SignedTransactionResult.fee :=
                  STXTransferParams.fee params ?? DEFAULT_FEE |}
     end) /\
    (String.length vrs <> 130 ->
     outcome (signSTXTransfer_of rev this params) =
       inl (Error (signatureLengthMessage (String.length vrs))) /\
     ErrorKind.InvalidSignatureLength
       (Error (signatureLengthMessage (String.length vrs))) = true).
Proof.
  intros Hr Ha Hn Hb Hs Hv.
  apply nonceResolved_iff in Hn.
  pose proof (signSTXTransfer_signing rev this params Hr Ha cs nonce transaction
                Hn Hb) as E.
  cbv zeta in E.
  assert (Hnorm : exists v,
    normalizeRecoveryByte (RawSignature.v signature) = inr v /\
    (parseInt (RawSignature.v signature) 16 = Int 0 /\ v = "00" \/
     parseInt (RawSignature.v signature) 16 = Int 1 /\ v = "01")).
  { rewrite normalizeRecoveryByte_eq.
    destruct Hv as [E0 | E1]; [rewrite E0 | rewrite E1]; eauto. }
  destruct Hnorm as (v & Hnorm & Hcase).
  assert (Hv2 : String.length v = 2).
  { destruct Hcase as [[_ ->] | [_ ->]]; reflexivity. }
  exists v.
  split; [exact Hcase | split; [now rewrite E |]].
  cbv zeta.
  pose proof (padStart_length_ge (RawSignature.r signature) 64) as [Hr64 Hrr].
  pose proof (padStart_length_ge (RawSignature.s signature) 64) as [Hs64 Hss].
  assert (Hlen : String.length
            (v ++ padStart (RawSignature.r signature) 64 "0"
               ++ padStart (RawSignature.s signature) 64 "0")
          = 2 + String.length (padStart (RawSignature.r signature) 64 "0")
            + String.length (padStart (RawSignature.s signature) 64 "0")).
  { rewrite !length_append, Hv2. lia. }
  assert (Hout : outcome (signSTXTransfer_of rev this params)
                 = attach this params nonce transaction signature).
  { rewrite E. unfold outcome, concluded. simpl snd. now rewrite Hs. }
  split; [| split; [| split]].
  - intros Hrle Hsle.
    rewrite Hlen, !padStart_short by assumption. auto.
  - intros Hlong. rewrite Hlen. lia.
  - intros H130. rewrite Hout. unfold attach. rewrite Hnorm.
    unfold vrsOf. cbv zeta.
    apply Nat.eqb_eq in H130. now rewrite H130.
  - intros H130. split; [| reflexivity].
    rewrite Hout. unfold attach. rewrite Hnorm.
    unfold vrsOf. cbv zeta.
    apply Nat.eqb_neq in H130. now rewrite H130.
Qed.

Lemma C2_signature_assembly_witness :
  let this := Stub.signer Stub.client Stub.key in
  let params := Stub.transfer Stub.knownRecipient 1000000 (Some 5%Z) (Some 200%Z) in
  let transaction :=
    {| Stub.options := transferOptions this params 5; Stub.signature := None |} in
  let vrs :=
    "010000000000000000000000000000000000000000000000000000000000001f2e00000000000000000000000000000000000000000000000000000000003d4c5b" in
  let signed :=
    {| SignedTransactionResult.transaction :=
         {| Stub.options := transferOptions this params 5;
            Stub.signature := Some vrs |};
       SignedTransactionResult.senderAddress :=
         "ST5afa6566651f6c49d84a482a1af918b25ba7caac00000000";
       SignedTransactionResult.nonce := 5%Z;
       SignedTransactionResult.fee := 200%Z |} in
  String.length vrs = 130 /\
  @signSTXTransfer_of Stub.library Stub.host src_index_ts this params =
    ([SignRawPayload
        (signingRequest src_index_ts this
           (@preSignHashOf Stub.library transaction))],
     inr signed) /\
  @signSTXTransfer_of Stub.library Stub.host part_000 this params =
    ([SignRawPayload
        (signingRequest part_000 this
           (@preSignHashOf Stub.library transaction))],
     inr signed).
Proof.
  intros this params transaction vrs signed.
  split; [reflexivity |].
  assert (Hrev : forall rev,
    @signSTXTransfer_of Stub.library Stub.host rev this params =
    ([SignRawPayload
        (signingRequest rev this (@preSignHashOf Stub.library transaction))],
     inr signed)).
  { intros rev.
    destruct (@C2_signature_assembly Stub.library Stub.host rev this params
                [] 5%Z transaction Stub.fixedSignature)
      as (v & Hv & Hcalls & Hlen & _ & Hattach & _).
    - reflexivity.
    - reflexivity.
    - split; reflexivity.
    - reflexivity.
    - reflexivity.
    - right. reflexivity.
    - destruct Hv as [[D _] | [_ ->]]; [discriminate D |].
      specialize (Hattach eq_refl).
      destruct (@signSTXTransfer_of Stub.library Stub.host rev this params)
        as [cs o].
      unfold calls, outcome in *. simpl in Hcalls, Hattach.
      now rewrite Hcalls, Hattach. }
  split; apply Hrev.
Defined.

(** ** C3: the guards come before any call *)

(** C3, as amended.  In either revision: a recipient that fails
    [validateStacksAddress] makes [signSTXTransfer] fail with the
    invalid-recipient error, whatever the amount; a valid recipient with an
    amount of zero or less makes it fail with the invalid-amount error.  In
    both cases no call was made: no nonce fetch and no signing request. *)
Theorem C3_guards_before_calls `{StacksTransactions} `{HostEnvironment}
  (rev : Revision) (this : TurnkeySigner.t) (params : STXTransferParams.t) :
  (validateStacksAddress (STXTransferParams.recipient params) = false ->
   signSTXTransfer_of rev this params =
     ([], inl (Error ("Invalid recipient Stacks address: "
                      ++ STXTransferParams.recipient params)))) /\
  (validateStacksAddress (STXTransferParams.recipient params) = true ->
   (STXTransferParams.amount params <= 0)%Z ->
   signSTXTransfer_of rev this params =
     ([], inl (Error "Amount must be greater than 0"))).
Proof.
  destruct (guards_cases rev this params) as [[Hr E] | [(Hr & Ha & E) | [Hr Ha]]];
    split; intros; try congruence; lia.
Qed.

Lemma C3_guards_before_calls_witness :
  @signSTXTransfer_of Stub.library Stub.host part_000
    (Stub.signer Stub.client Stub.key)
    (Stub.transfer "SP000" 1000000 None None)
  = ([], inl (Error "Invalid recipient Stacks address: SP000")) /\
  @signSTXTransfer_of Stub.library Stub.host src_index_ts
    (Stub.signer Stub.client Stub.key)
    (Stub.transfer Stub.knownRecipient (-1) None None)
  = ([], inl (Error "Amount must be greater than 0")).
Proof.
  split.
  - apply (proj1 (@C3_guards_before_calls Stub.library Stub.host part_000
                    (Stub.signer Stub.client Stub.key)
                    (Stub.transfer "SP000" 1000000 None None))).
    reflexivity.
  - apply (proj2 (@C3_guards_before_calls Stub.library Stub.host src_index_ts
                    (Stub.signer Stub.client Stub.key)
                    (Stub.transfer Stub.knownRecipient (-1) None None))).
    + reflexivity.
    + simpl. lia.
Defined.

(** C3 as stated fails where both guards apply: with amount 0 and a
    recipient that is not an address, the call fails with the
    invalid-recipient error, not with the invalid-amount error. *)
Lemma C3_counterexample :
  (STXTransferParams.amount (Stub.transfer "not-an-address" 0 None None) <= 0)%Z /\
  @signSTXTransfer_of Stub.library Stub.host src_index_ts
    (Stub.signer Stub.client Stub.key)
    (Stub.transfer "not-an-address" 0 None None)
  = ([], inl (Error "Invalid recipient Stacks address: not-an-address")) /\
  @signSTXTransfer_of Stub.library Stub.host part_000
    (Stub.signer Stub.client Stub.key)
    (Stub.transfer "not-an-address" 0 None None)
  = ([], inl (Error "Invalid recipient Stacks address: not-an-address")) /\
  ErrorKind.InvalidAmount
    (Error "Invalid recipient Stacks address: not-an-address") = false.
Proof.
  split; [simpl; lia | repeat split].
Qed.

(** ** C4: the two errors of the key validator *)

(** C4, as amended.  Let [cleaned] be the string that the validator tests:
    the key without an optional 0x in src/src/index.ts, and that string
    lower-cased in the later revision.  When the length of [cleaned] is not
    66, the key is refused with the wrong-length error, which reports that
    length; when it is 66 and the first two characters of [cleaned] are
    neither 02 nor 03, the key is refused with the wrong-prefix error, which
    reports them; and no error is both: the wrong-length message and the
    wrong-prefix message never coincide. *)
Theorem C4_key_errors (rev : Revision) (pubKeyHex : string) :
  let cleaned :=
    match rev with
    | src_index_ts => without0x pubKeyHex
    | part_000 => toLowerCase (without0x pubKeyHex)
    end in
  (String.length cleaned <> 66 ->
   validateCompressedPublicKey_of rev pubKeyHex =
     inl (Error (keyLengthMessage (String.length cleaned)))) /\
  (String.length cleaned = 66 ->
   slice cleaned 0 2 <> "02" ->
   slice cleaned 0 2 <> "03" ->
   validateCompressedPublicKey_of rev pubKeyHex =
     inl (Error (keyPrefixMessage (slice cleaned 0 2)))) /\
  (forall n p,
     keyLengthMessage n <> keyPrefixMessage p /\
     ErrorKind.InvalidKeyFormat (Error (keyLengthMessage n)) = true /\
     ErrorKind.InvalidKeyPrefix (Error (keyLengthMessage n)) = false /\
     ErrorKind.InvalidKeyPrefix (Error (keyPrefixMessage p)) = true /\
     ErrorKind.InvalidKeyFormat (Error (keyPrefixMessage p)) = false).
Proof.
  intros cleaned.
  assert (Hc : cleaned = cleanedOf rev pubKeyHex) by (destruct rev; reflexivity).
  rewrite Hc.
  split; [apply validate_cleaned_wrong_length
         | split; [apply validate_cleaned_wrong_prefix |]].
  intros n p. repeat split. discriminate.
Qed.

Lemma C4_key_errors_witness :
  IndexTs.validateCompressedPublicKey "025afa" =
    inl (Error "Invalid public key length: expected 66 hex chars (33 bytes compressed), got 6") /\
  Part000.validateCompressedPublicKey "0x025AFA" =
    inl (Error "Invalid public key length: expected 66 hex chars (33 bytes compressed), got 6") /\
  IndexTs.validateCompressedPublicKey
    "045AFA6566651f6c49d84a482a1af918b25ba7caac0b06d9ab8d79a45b72715aeb" =
    inl (Error "Invalid public key prefix: expected '02' or '03' (compressed), got '04'") /\
  Part000.validateCompressedPublicKey
    "0x045AFA6566651f6c49d84a482a1af918b25ba7caac0b06d9ab8d79a45b72715aeb" =
    inl (Error "Invalid public key prefix: expected '02' or '03' (compressed), got '04'").
Proof.
  split; [| split; [| split]].
  - apply (proj1 (C4_key_errors src_index_ts "025afa")).
    simpl. lia.
  - apply (proj1 (C4_key_errors part_000 "0x025AFA")).
    simpl. lia.
  - apply (proj1 (proj2 (C4_key_errors src_index_ts
      "045AFA6566651f6c49d84a482a1af918b25ba7caac0b06d9ab8d79a45b72715aeb"))).
    + reflexivity.
    + vm_compute. discriminate.
    + vm_compute. discriminate.
  - apply (proj1 (proj2 (C4_key_errors part_000
      "0x045AFA6566651f6c49d84a482a1af918b25ba7caac0b06d9ab8d79a45b72715aeb"))).
    + reflexivity.
    + vm_compute. discriminate.
    + vm_compute. discriminate.
Defined.

(** C4 as stated fails on a key that is both too short and badly prefixed:
    "04" has the leading byte 04, and is refused with the wrong-length
    error, not with the wrong-prefix error. *)
Lemma C4_counterexample :
  leadingByte src_index_ts "04" = "04" /\
  leadingByte part_000 "04" = "04" /\
  IndexTs.validateCompressedPublicKey "04" =
    inl (Error "Invalid public key length: expected 66 hex chars (33 bytes compressed), got 2") /\
  Part000.validateCompressedPublicKey "04" =
    inl (Error "Invalid public key length: expected 66 hex chars (33 bytes compressed), got 2") /\
  ErrorKind.InvalidKeyPrefix
    (Error "Invalid public key length: expected 66 hex chars (33 bytes compressed), got 2")
    = false.
Proof.
  repeat split.
Qed.

(** ** C5: the canonical form of the stored key *)

(** The later revision stores every well-formed key in canonical form. *)
Lemma Part000_constructor_canonical (config : TurnkeySignerConfig.t) :
  validKeyInput (TurnkeySignerConfig.publicKey config) ->
  exists this,
    Part000.constructor config = inr this /\
    Part000.getPublicKey this =
      toLowerCase (without0x (TurnkeySignerConfig.publicKey config)) /\
    canonicalKey (Part000.getPublicKey this).
Proof.
  intros Hvalid.
  destruct (Part000_validate_canonical _ Hvalid) as [Hv Hc].
  unfold Part000.constructor, Shared.constructor. rewrite Hv.
  eexists. split; [reflexivity | split; [reflexivity | exact Hc]].
Qed.

(** C5, at the input on which src/src/index.ts departs from it: the key of
    the README in upper case is a well-formed key, the constructor of
    src/src/index.ts accepts it and [getPublicKey] returns it in upper case,
    which is not the canonical lower-case form; the later revision returns
    it in lower case. *)
Theorem C5_index_ts_keeps_case (client : TurnkeySignerClient)
  (organizationId : option string) (network : option StacksNetworkType) :
  let config :=
    {| TurnkeySignerConfig.client := client;
       TurnkeySignerConfig.publicKey := Stub.upperCaseKey;
       TurnkeySignerConfig.organizationId := organizationId;
       TurnkeySignerConfig.network := network |} in
  validKeyInput Stub.upperCaseKey /\
  (exists this,
     IndexTs.constructor config = inr this /\
     IndexTs.getPublicKey this = Stub.upperCaseKey) /\
  allChars isLowerHexDigit Stub.upperCaseKey = false /\
  (exists this,
     Part000.constructor config = inr this /\
     Part000.getPublicKey this = Stub.key).
Proof.
  intros config. split; [| split; [| split]].
  - repeat split. now left.
  - eexists. split; reflexivity.
  - reflexivity.
  - eexists. split; reflexivity.
Qed.

(** ** C6: the recovery byte *)

(** C6, as amended.  [normalizeRecoveryByte] goes by the value that
    [parseInt(v, 16)] finds: 0 gives "00", 1 gives "01", and anything else,
    [NaN] included, is refused with the invalid-recovery-byte error; and when
    [signSTXTransfer], in either revision, has been given a raw signature
    whose [v] is refused, the call fails with that error. *)
Theorem C6_recovery_byte :
  (forall v : string,
     normalizeRecoveryByte v =
     match parseInt v 16 with
     | Int 0 => inr "00"
     | Int 1 => inr "01"
     | _ => inl (Error ("Invalid recovery byte value: " ++ v ++ " (expected 0 or 1)"))
     end) /\
  (forall `{StacksTransactions} `{HostEnvironment} (rev : Revision)
      (this : TurnkeySigner.t) (params : STXTransferParams.t)
      (request : SignRawPayloadParams.t) (signature : RawSignature.t),
     In (SignRawPayload request) (calls (signSTXTransfer_of rev this params)) ->
     signRawPayload (TurnkeySigner.client this) request = inr signature ->
     parseInt (RawSignature.v signature) 16 <> Int 0 ->
     parseInt (RawSignature.v signature) 16 <> Int 1 ->
     outcome (signSTXTransfer_of rev this params) =
       inl (Error ("Invalid recovery byte value: " ++ RawSignature.v signature
                   ++ " (expected 0 or 1)")) /\
     ErrorKind.InvalidRecoveryByte
       (Error ("Invalid recovery byte value: " ++ RawSignature.v signature
               ++ " (expected 0 or 1)")) = true).
Proof.
  split; [exact normalizeRecoveryByte_eq |].
  intros lib env rev this params request signature Hin Hs H0 H1.
  apply signing_call_inv in Hin
    as (_ & _ & cs & nonce & transaction & _ & _ & _ & ->).
  split; [| reflexivity].
  unfold outcome, concluded, attach. simpl snd. rewrite Hs.
  rewrite normalizeRecoveryByte_eq.
  destruct (parseInt (RawSignature.v signature) 16) as [| [| [p | p |] | p]];
    try reflexivity; congruence.
Qed.

Lemma C6_recovery_byte_witness :
  normalizeRecoveryByte "0x1" = inr "01" /\
  outcome (@signSTXTransfer_of Stub.library Stub.host part_000
             (Stub.signer Stub.badRecoveryClient Stub.key)
             (Stub.transfer Stub.knownRecipient 1000000 (Some 5%Z) None))
    = inl (Error "Invalid recovery byte value: 1b (expected 0 or 1)").
Proof.
  split.
  - rewrite (proj1 C6_recovery_byte). reflexivity.
  - apply (proj2 C6_recovery_byte Stub.library Stub.host part_000
             (Stub.signer Stub.badRecoveryClient Stub.key)
             (Stub.transfer Stub.knownRecipient 1000000 (Some 5%Z) None)
             (signingRequest part_000
                (Stub.signer Stub.badRecoveryClient Stub.key) Stub.digest)
             {| RawSignature.v := "1b"; RawSignature.r := "1f2e";
                RawSignature.s := "3d4c5b" |}).
    + vm_compute. left. reflexivity.
    + reflexivity.
    + vm_compute. discriminate.
    + vm_compute. discriminate.
Defined.

(** C6 as stated fails on "01": it is neither "0" nor "1", and it is
    accepted, as are "00" and "0x1"; with a client that answers [v] = "01"
    the whole call succeeds. *)
Lemma C6_counterexample :
  "01" <> "0" /\ "01" <> "1" /\
  normalizeRecoveryByte "01" = inr "01" /\
  normalizeRecoveryByte "00" = inr "00" /\
  normalizeRecoveryByte "0x1" = inr "01" /\
  RawSignature.v Stub.fixedSignature = "01" /\
  exists result,
    outcome (@signSTXTransfer_of Stub.library Stub.host src_index_ts
               (Stub.signer Stub.client Stub.key)
               (Stub.transfer Stub.knownRecipient 1000000 (Some 5%Z) None))
    = inr result.
Proof.
  repeat split; try discriminate.
  eexists. reflexivity.
Qed.

(** ** C7: nonce and fee of a successful call *)

(** C7.  When [signSTXTransfer] succeeds, in either revision: a nonce that
    the caller supplied is the nonce returned, and no nonce was fetched; a
    fee that the caller supplied is the fee returned, and without one the
    fee returned is 180; and the transaction returned is the one that
    [makeUnsignedSTXTokenTransfer] built from the returned nonce and the
    returned fee, with its signature set. *)
Theorem C7_nonce_and_fee `{StacksTransactions} `{HostEnvironment}
  (rev : Revision) (this : TurnkeySigner.t) (params : STXTransferParams.t)
  (result : SignedTransactionResult.t StacksTransactionWire) :
  outcome (signSTXTransfer_of rev this params) = inr result ->
  (forall n, STXTransferParams.nonce params = Some n ->
     SignedTransactionResult.nonce result = n /\
     forall url, ~ In (Fetch url) (calls (signSTXTransfer_of rev this params))) /\
  (forall f, STXTransferParams.fee params = Some f ->
     SignedTransactionResult.fee result = f) /\
  (STXTransferParams.fee params = None ->
     SignedTransactionResult.fee result = 180%Z) /\
  exists transaction messageSignature,
    makeUnsignedSTXTokenTransfer
      {| UnsignedTokenTransferOptions.recipient := STXTransferParams.recipient params;
         UnsignedTokenTransferOptions.amount := STXTransferParams.amount params;
         UnsignedTokenTransferOptions.publicKey := Shared.getPublicKey this;
         UnsignedTokenTransferOptions.nonce := SignedTransactionResult.nonce result;
         UnsignedTokenTransferOptions.fee := SignedTransactionResult.fee result;
         UnsignedTokenTransferOptions.network :=
           STXTransferParams.network params ?? TurnkeySigner.network this;
         UnsignedTokenTransferOptions.memo := STXTransferParams.memo params |}
      = inr transaction /\
    SignedTransactionResult.transaction result
      = setSignature transaction messageSignature.
Proof.
  intros Hok.
  apply success_inv in Hok
    as (cs & nonce & transaction & signature & Hn & Hb & _ & Ha & Hcalls).
  unfold attach in Ha.
  destruct (normalizeRecoveryByte _) as [e | v]; [discriminate Ha |].
  cbv zeta in Ha.
  destruct (negb _); [discriminate Ha |].
  destruct (createMessageSignature _) as [e | messageSignature];
    [discriminate Ha |].
  injection Ha as <-. simpl.
  split; [| split; [| split]].
  - intros n Hsup. rewrite (resolveNonce_supplied this params n Hsup) in Hn.
    injection Hn as <- <-. split; [reflexivity |].
    intros url Hin. rewrite Hcalls in Hin. simpl in Hin.
    destruct Hin as [E | []]. discriminate E.
  - now intros f ->.
  - now intros ->.
  - exists transaction, messageSignature. split; [exact Hb | reflexivity].
Qed.

Lemma C7_nonce_and_fee_witness :
  exists result,
    outcome (@signSTXTransfer_of Stub.library Stub.host part_000
               (Stub.signer Stub.client Stub.key)
               (Stub.transfer Stub.knownRecipient 1000000 (Some 5%Z) (Some 200%Z)))
      = inr result /\
    SignedTransactionResult.nonce result = 5%Z /\
    SignedTransactionResult.fee result = 200%Z.
Proof.
  eexists. split; [reflexivity |].
  split.
  - eapply (@C7_nonce_and_fee Stub.library Stub.host part_000
              (Stub.signer Stub.client Stub.key)
              (Stub.transfer Stub.knownRecipient 1000000 (Some 5%Z) (Some 200%Z)));
      reflexivity.
  - eapply (@C7_nonce_and_fee Stub.library Stub.host part_000
              (Stub.signer Stub.client Stub.key)
              (Stub.transfer Stub.knownRecipient 1000000 (Some 5%Z) (Some 200%Z)));
      reflexivity.
Defined.

(** ** C8: a signing call that fails *)

(** In either revision [signHash] calls the client once, whatever the
    answer, and a rejection by the client is a rejection of [signHash]. *)
Lemma signHash_once (rev : Revision) (this : TurnkeySigner.t) (hash : string) :
  calls (signHash_of rev this hash) = [SignRawPayload (signingRequest rev this hash)] /\
  forall error,
    signRawPayload (TurnkeySigner.client this) (signingRequest rev this hash)
      = inl error ->
    outcome (signHash_of rev this hash) = inl (rethrown rev this error).
Proof.
  rewrite signHash_of_eq. split; [reflexivity |].
  intros error Hs. unfold outcome. simpl snd. now rewrite Hs.
Qed.

(** src/src/index.ts lets every error through as it is. *)
Lemma IndexTs_rethrown_verbatim (this : TurnkeySigner.t) (error : Thrown) :
  rethrown src_index_ts this error = error.
Proof.
  reflexivity.
Qed.

(** The later revision lets an error through as it is unless its message
    tells that no resource was found to sign with; then it throws an error
    whose message holds the public key, the organization id of the signer
    (or the placeholder when there is none) and the original message. *)
Lemma Part000_rethrown (this : TurnkeySigner.t) (error : Thrown) :
  (includes (messageOf error) Part000.resourceNotFound = false ->
   rethrown part_000 this error = error) /\
  (includes (messageOf error) Part000.resourceNotFound = true ->
   exists message,
     rethrown part_000 this error = Error message /\
     includes message (TurnkeySigner.compressedPublicKey this) = true /\
     includes message
       (TurnkeySigner.organizationId this ?? "(not set — using client session)")
       = true /\
     includes message (messageOf error) = true).
Proof.
  unfold rethrown. split; intros Hinc; rewrite Hinc; [reflexivity |].
  eexists. split; [reflexivity |].
  unfold Part000.signingKeyNotFoundMessage.
  split; [| split].
  - do 3 apply includes_skip. apply includes_here.
  - do 6 apply includes_skip. apply includes_here.
  - do 19 apply includes_skip. apply includes_refl.
Qed.

(** A failure of the signing call fails [signSTXTransfer], after one
    signing request. *)
Lemma signSTXTransfer_signing_failure `{StacksTransactions} `{HostEnvironment}
  (rev : Revision) (this : TurnkeySigner.t) (params : STXTransferParams.t)
  (request : SignRawPayloadParams.t) (error : Thrown) :
  In (SignRawPayload request) (calls (signSTXTransfer_of rev this params)) ->
  signRawPayload (TurnkeySigner.client this) request = inl error ->
  outcome (signSTXTransfer_of rev this params) = inl (rethrown rev this error) /\
  exists cs,
    calls (signSTXTransfer_of rev this params) = (cs ++ [SignRawPayload request])%list /\
    forall request', ~ In (SignRawPayload request') cs.
Proof.
  intros Hin Hs.
  apply signing_call_inv in Hin
    as (_ & _ & cs & nonce & transaction & Hn & _ & _ & E).
  rewrite E. unfold outcome, calls, concluded. simpl. rewrite Hs.
  split; [reflexivity |].
  exists cs. split; [reflexivity |].
  intros request'. eapply resolveNonce_no_signing; eauto.
Qed.

(** C8, as amended.  Let the guards of [signSTXTransfer] be passed, the
    nonce be had after the calls [cs], the builder return a transaction, and
    the client reject the signing request for it with [error].  Then, in
    either revision, [signHash] made that one request and is rejected, and
    [signSTXTransfer] is rejected with the same value after [cs] and that one
    request: the failure is not swallowed and nothing is tried again.
    src/src/index.ts rejects with [error] as it is.  The later revision does
    the same unless the message of [error] (its text, when it is no Error)
    holds "Could not find any resource to sign with"; then it rejects with a
    new Error whose message holds the public key of the signer, its
    organization id (a placeholder when there is none) and the original
    message. *)
Theorem C8_signing_failure `{StacksTransactions} `{HostEnvironment}
  (rev : Revision) (this : TurnkeySigner.t) (params : STXTransferParams.t)
  (cs : list Call) (nonce : Z) (transaction : StacksTransactionWire)
  (error : Thrown) :
  validateStacksAddress (STXTransferParams.recipient params) = true ->
  (0 < STXTransferParams.amount params)%Z ->
  nonceResolved this params cs nonce ->
  makeUnsignedSTXTokenTransfer (transferOptions this params nonce)
    = inr transaction ->
  signRawPayload (TurnkeySigner.client this)
    (signingRequest rev this (preSignHashOf transaction)) = inl error ->
  exists thrown,
    signHash_of rev this (preSignHashOf transaction) =
      ([SignRawPayload (signingRequest rev this (preSignHashOf transaction))],
       inl thrown) /\
    signSTXTransfer_of rev this params =
      ((cs ++ [SignRawPayload
                 (signingRequest rev this (preSignHashOf transaction))])%list,
       inl thrown) /\
    (forall request, ~ In (SignRawPayload request) cs) /\
    match rev with
    | src_index_ts => thrown = error
    | part_000 =>
        if includes (messageOf error) "Could not find any resource to sign with"
        then
          exists message,
            thrown = Error message /\
            includes message (Shared.getPublicKey this) = true /\
            includes message
              (TurnkeySigner.organizationId this
               ?? "(not set — using client session)") = true /\
            includes message (messageOf error) = true
        else thrown = error
    end.
Proof.
  intros Hr Ha Hn Hb Hs.
  apply nonceResolved_iff in Hn.
  pose proof (signSTXTransfer_signing rev this params Hr Ha cs nonce transaction
                Hn Hb) as E.
  cbv zeta in E. unfold concluded in E. rewrite Hs in E.
  exists (rethrown rev this error).
  split; [now rewrite signHash_of_eq, Hs |].
  split; [exact E |].
  split; [intros request; eapply resolveNonce_no_signing; eauto |].
  destruct rev; [reflexivity |].
  pose proof (Part000_rethrown this error) as [Hplain Hrich].
  change "Could not find any resource to sign with" with Part000.resourceNotFound.
  destruct (includes (messageOf error) Part000.resourceNotFound).
  - destruct (Hrich eq_refl) as (message & Em & Hk & Ho & Hm).
    exists message. auto.
  - now apply Hplain.
Qed.

Lemma C8_signing_failure_witness :
  let this := Stub.signer Stub.rejectingClient Stub.key in
  let params := Stub.transfer Stub.knownRecipient 1000000 (Some 5%Z) None in
  outcome (@signSTXTransfer_of Stub.library Stub.host src_index_ts this params)
    = inl (Error "Could not find any resource to sign with") /\
  exists message,
    outcome (@signSTXTransfer_of Stub.library Stub.host part_000 this params)
      = inl (Error message) /\
    includes message Stub.key = true /\
    includes message "org-123" = true /\
    includes message "Could not find any resource to sign with" = true.
Proof.
  intros this params.
  split.
  - destruct (@C8_signing_failure Stub.library Stub.host src_index_ts this params
                [] 5%Z
                {| Stub.options := transferOptions this params 5;
                   Stub.signature := None |}
                (Error "Could not find any resource to sign with"))
      as (thrown & _ & E & _ & Hthrown).
    + reflexivity.
    + reflexivity.
    + split; reflexivity.
    + reflexivity.
    + reflexivity.
    + rewrite E. simpl in Hthrown. now rewrite Hthrown.
  - destruct (@C8_signing_failure Stub.library Stub.host part_000 this params
                [] 5%Z
                {| Stub.options := transferOptions this params 5;
                   Stub.signature := None |}
                (Error "Could not find any resource to sign with"))
      as (thrown & _ & E & _ & Hthrown).
    + reflexivity.
    + reflexivity.
    + split; reflexivity.
    + reflexivity.
    + reflexivity.
    + destruct Hthrown as (message & -> & Hk & Ho & Hm).
      exists message. rewrite E. auto.
Defined.

(** C8 as stated fails on src/src/index.ts, which enriches nothing: with a
    client that rejects with "Could not find any resource to sign with",
    [signHash] of src/src/index.ts calls the client once and rejects with
    that very error, whose message holds neither the public key nor the
    organization id; [signHash] of the later revision, on the same signer,
    rejects with the message that holds both. *)
Lemma C8_counterexample :
  let this := Stub.signer Stub.rejectingClient Stub.key in
  IndexTs.signHash this Stub.digest =
    ([SignRawPayload (signingRequest src_index_ts this Stub.digest)],
     inl (Error "Could not find any resource to sign with")) /\
  includes "Could not find any resource to sign with" Stub.key = false /\
  includes "Could not find any resource to sign with" "org-123" = false /\
  Part000.signHash this Stub.digest =
    ([SignRawPayload (signingRequest part_000 this Stub.digest)],
     inl (Error (Part000.signingKeyNotFoundMessage this
                   "Could not find any resource to sign with"))).
Proof.
  repeat split.
Qed.

(** ** C9: addresses *)

(** The two characters in front of an address: the marker of the address
    family and the character of the version. *)
Lemma publicKeyToAddress_marker (hash160 : string -> string)
  (c32checksum : nat -> string -> string) (c32encode : string -> string)
  (publicKey : string) (network : StacksNetworkType) :
  AddressCodec.publicKeyToAddress hash160 c32checksum c32encode publicKey network =
  match network with
  | testnet => "ST"
  | mainnet => "SP"
  end ++ c32encode (hash160 publicKey
                    ++ c32checksum (AddressCodec.AddressVersion network)
                         (hash160 publicKey)).
Proof.
  destruct network; reflexivity.
Qed.

(** C9.  Let [publicKeyToAddress] be the address codec of section 4.2, with
    any hash, checksum and base-32 encoding.  For every key that
    [validateCompressedPublicKey] accepts, in either revision:
    [getAddressFromPublicKey] returns an address that begins with "ST" on
    testnet (also when no network is given) and with "SP" on mainnet, and
    the two differ; and [getAddress] of any signer that holds the accepted
    key returns these same two addresses, by the network asked for or, when
    none is asked for, by the network of the signer: the address depends on
    the key and the network only. *)
Theorem C9_address_derivation `{StacksTransactions}
  (hash160 : string -> string) (c32checksum : nat -> string -> string)
  (c32encode : string -> string)
  (rev : Revision) (publicKey key : string) :
  (forall k n,
     publicKeyToAddress k n =
     AddressCodec.publicKeyToAddress hash160 c32checksum c32encode k n) ->
  validateCompressedPublicKey_of rev publicKey = inr key ->
  exists st sp,
    getAddressFromPublicKey_of rev publicKey (Some testnet) = inr st /\
    getAddressFromPublicKey_of rev publicKey None = inr st /\
    getAddressFromPublicKey_of rev publicKey (Some mainnet) = inr sp /\
    startsWith st "ST" = true /\
    startsWith sp "SP" = true /\
    st <> sp /\
    forall this,
      Shared.getPublicKey this = key ->
      Shared.getAddress this (Some testnet) = st /\
      Shared.getAddress this (Some mainnet) = sp /\
      Shared.getAddress this None =
        match TurnkeySigner.network this with
        | testnet => st
        | mainnet => sp
        end.
Proof.
  intros Hcodec Hvalid.
  exists (publicKeyToAddress key testnet), (publicKeyToAddress key mainnet).
  assert (Hget : forall network,
    getAddressFromPublicKey_of rev publicKey network =
    inr (publicKeyToAddress key (network ?? testnet))).
  { intros network.
    destruct rev; simpl in Hvalid |- *;
      unfold IndexTs.getAddressFromPublicKey, Part000.getAddressFromPublicKey,
        Shared.getAddressFromPublicKey;
      now rewrite Hvalid. }
  repeat split; try apply Hget.
  - rewrite Hcodec, publicKeyToAddress_marker. apply prefix_append.
  - rewrite Hcodec, publicKeyToAddress_marker. apply prefix_append.
  - rewrite !Hcodec, !publicKeyToAddress_marker. discriminate.
  - unfold Shared.getAddress, Shared.getPublicKey in *. now subst key.
  - unfold Shared.getAddress, Shared.getPublicKey in *. now subst key.
  - unfold Shared.getAddress, Shared.getPublicKey in *. subst key.
    now destruct (TurnkeySigner.network this).
Qed.

Lemma C9_address_derivation_witness :
  exists st sp,
    @getAddressFromPublicKey_of Stub.library part_000
      ("0x" ++ Stub.upperCaseKey) (Some testnet) = inr st /\
    @getAddressFromPublicKey_of Stub.library part_000
      ("0x" ++ Stub.upperCaseKey) (Some mainnet) = inr sp /\
    startsWith st "ST" = true /\
    startsWith sp "SP" = true /\
    st <> sp.
Proof.
  destruct (@C9_address_derivation Stub.library
              Stub.hash160 Stub.c32checksum Stub.c32encode
              part_000 ("0x" ++ Stub.upperCaseKey) Stub.key)
    as (st & sp & Ht & _ & Hm & Hst & Hsp & Hneq & _).
  - reflexivity.
  - reflexivity.
  - exists st, sp. auto.
Defined.

(** ** C10: a nonce answer without the field *)

(** C10.  Let the caller give no nonce, the guards be passed, and the nonce
    service answer with a status between 200 and 299 and a body without
    [possible_next_nonce].  Then [fetchNonce] resolves to 0 after its one
    request, and [signSTXTransfer], in either revision, builds the
    transaction with nonce 0; once it is built, the calls made are the nonce
    fetch and then the signing request for the pre-sign hash of that
    transaction, and a call that succeeds returns nonce 0. *)
Theorem C10_missing_nonce_field `{StacksTransactions} `{HostEnvironment}
  (rev : Revision) (this : TurnkeySigner.t) (params : STXTransferParams.t)
  (res : Response.t) (data : NonceResponse.t) :
  STXTransferParams.nonce params = None ->
  validateStacksAddress (STXTransferParams.recipient params) = true ->
  (0 < STXTransferParams.amount params)%Z ->
  fetch (nonceUrl this params) = inr res ->
  200 <= Response.status res <= 299 ->
  Response.json res = inr data ->
  NonceResponse.possible_next_nonce data = None ->
  Shared.fetchNonce (senderOf this params) (networkOf this params)
    = ([Fetch (nonceUrl this params)], inr 0%Z) /\
  forall transaction,
    makeUnsignedSTXTokenTransfer
      {| UnsignedTokenTransferOptions.recipient := STXTransferParams.recipient params;
         UnsignedTokenTransferOptions.amount := STXTransferParams.amount params;
         UnsignedTokenTransferOptions.publicKey := Shared.getPublicKey this;
         UnsignedTokenTransferOptions.nonce := 0%Z;
         UnsignedTokenTransferOptions.fee :=
           STXTransferParams.fee params ?? DEFAULT_FEE;
         UnsignedTokenTransferOptions.network := networkOf this params;
         UnsignedTokenTransferOptions.memo := STXTransferParams.memo params |}
      = inr transaction ->
    exists request,
      calls (signSTXTransfer_of rev this params)
        = [Fetch (nonceUrl this params); SignRawPayload request] /\
      SignRawPayloadParams.payload request = "0x" ++ preSignHashOf transaction /\
      forall result,
        outcome (signSTXTransfer_of rev this params) = inr result ->
        SignedTransactionResult.nonce result = 0%Z.
Proof.
  intros Hnone Hr Ha Hfetch Hstatus Hjson Hfield.
  assert (Hnonce : Shared.fetchNonce (senderOf this params) (networkOf this params)
                   = ([Fetch (nonceUrl this params)], inr 0%Z)).
  { rewrite fetchNonce_eq. cbv zeta. fold (nonceUrl this params).
    rewrite Hfetch. unfold Response.ok.
    destruct Hstatus as [Hlo Hhi].
    apply Nat.leb_le in Hlo, Hhi. rewrite Hlo, Hhi. simpl.
    now rewrite Hjson, Hfield. }
  split; [exact Hnonce |].
  intros transaction Hb.
  assert (Hn : resolveNonce this params = ([Fetch (nonceUrl this params)], inr 0%Z)).
  { unfold resolveNonce. now rewrite Hnone. }
  pose proof (signSTXTransfer_signing rev this params Hr Ha _ _ transaction Hn Hb)
    as E.
  cbv zeta in E.
  exists (signingRequest rev this (preSignHashOf transaction)).
  rewrite E. split; [reflexivity | split; [reflexivity |]].
  intros result. unfold outcome, concluded. simpl snd.
  destruct (signRawPayload _ _) as [e | signature]; [discriminate |].
  unfold attach.
  destruct (normalizeRecoveryByte _) as [e | v]; [discriminate |].
  cbv zeta.
  destruct (negb _); [discriminate |].
  destruct (createMessageSignature _) as [e | messageSignature]; [discriminate |].
  now intros [= <-].
Qed.

Lemma C10_missing_nonce_field_witness :
  let this := Stub.signer Stub.client Stub.key in
  let params := Stub.transfer Stub.knownRecipient 1000000 None None in
  @Shared.fetchNonce Stub.host
    (@senderOf Stub.library this params) (networkOf this params)
    = ([Fetch (@nonceUrl Stub.library this params)], inr 0%Z) /\
  exists result,
    outcome (@signSTXTransfer_of Stub.library Stub.host src_index_ts this params)
      = inr result /\
    SignedTransactionResult.nonce result = 0%Z.
Proof.
  set (this := Stub.signer Stub.client Stub.key).
  set (params := Stub.transfer Stub.knownRecipient 1000000 None None).
  cbv zeta.
  destruct (@C10_missing_nonce_field Stub.library Stub.host src_index_ts
              this params
              {| Response.status := 200;
                 Response.statusText := "OK";
                 Response.json := inr {| NonceResponse.possible_next_nonce := None |} |}
              {| NonceResponse.possible_next_nonce := None |})
    as [Hnonce Hrun]; try reflexivity.
  - simpl. lia.
  - split; [exact Hnonce |].
    destruct (Hrun {| Stub.options := transferOptions this params 0;
                      Stub.signature := None |} eq_refl)
      as (request & _ & _ & Hzero).
    eexists. split; [reflexivity |].
    apply Hzero. reflexivity.
Defined.

(** * Further properties of the code *)

(** ** Shared facts *)

(** The constructor is the validator followed by the record. *)
Lemma constructor_of_eq (rev : Revision) (config : TurnkeySignerConfig.t) :
  constructor_of rev config =
  match validateCompressedPublicKey_of rev (TurnkeySignerConfig.publicKey config) with
  | inl e => inl e
  | inr cleaned =>
      inr {| TurnkeySigner.client := TurnkeySignerConfig.client config;
             TurnkeySigner.organizationId :=
               TurnkeySignerConfig.organizationId config;
             TurnkeySigner.network :=
               TurnkeySignerConfig.network config ?? testnet;
             TurnkeySigner.compressedPublicKey := cleaned |}
  end.
Proof.
  destruct rev; reflexivity.
Qed.

(** What [attach] needs to succeed, and what it returns then. *)
Lemma attach_inr `{StacksTransactions} `{HostEnvironment}
  (this : TurnkeySigner.t) (params : STXTransferParams.t) (nonce : Z)
  (transaction : StacksTransactionWire) (signature : RawSignature.t)
  (result : SignedTransactionResult.t StacksTransactionWire) :
  attach this params nonce transaction signature = inr result ->
  exists v messageSignature,
    normalizeRecoveryByte (RawSignature.v signature) = inr v /\
    (v = "00" \/ v = "01") /\
    String.length (v ++ padStart (RawSignature.r signature) 64 "0"
                     ++ padStart (RawSignature.s signature) 64 "0") = 130 /\
    createMessageSignature (v ++ padStart (RawSignature.r signature) 64 "0"
                              ++ padStart (RawSignature.s signature) 64 "0")
      = inr messageSignature /\
    result =
      {| SignedTransactionResult.transaction :=
           setSignature transaction messageSignature;
         SignedTransactionResult.senderAddress := senderOf this params;
         SignedTransactionResult.nonce := nonce;
         SignedTransactionResult.fee :=
           STXTransferParams.fee params ?? DEFAULT_FEE |}.
Proof.
  unfold attach, vrsOf. rewrite normalizeRecoveryByte_eq.
  destruct (parseInt (RawSignature.v signature) 16) as [| [| [p | p |] | p]];
    try discriminate; cbv zeta;
    (destruct (String.length _ =? 130)%nat eqn:Hlen; simpl; [| discriminate]);
    (destruct (createMessageSignature _) as [e | messageSignature] eqn:Hm;
       [discriminate |]);
    intros [= <-]; apply Nat.eqb_eq in Hlen;
    eexists _, messageSignature; repeat split; eauto.
Qed.

(** A call that succeeds passed the guards. *)
Lemma success_guards `{StacksTransactions} `{HostEnvironment}
  (rev : Revision) (this : TurnkeySigner.t) (params : STXTransferParams.t)
  (result : SignedTransactionResult.t StacksTransactionWire) :
  outcome (signSTXTransfer_of rev this params) = inr result ->
  validateStacksAddress (STXTransferParams.recipient params) = true /\
  (0 < STXTransferParams.amount params)%Z.
Proof.
  intros Hok.
  destruct (guards_cases rev this params) as [[_ E] | [(_ & _ & E) | HH]];
    [rewrite E in Hok; discriminate Hok | rewrite E in Hok; discriminate Hok
    | exact HH].
Qed.

(** The calls of a run: none when a guard stops it; otherwise those of the
    nonce resolution, then at most one signing request. *)
Lemma calls_cases `{StacksTransactions} `{HostEnvironment}
  (rev : Revision) (this : TurnkeySigner.t) (params : STXTransferParams.t) :
  calls (signSTXTransfer_of rev this params) = [] \/
  exists signings,
    calls (signSTXTransfer_of rev this params) =
      (match STXTransferParams.nonce params with
       | Some _ => []
       | None => [Fetch (nonceUrl this params)]
       end ++ signings)%list /\
    (signings = [] \/ exists request, signings = [SignRawPayload request]).
Proof.
  pose proof (resolveNonce_calls this params) as Hcalls.
  destruct (guards_cases rev this params) as [[_ E] | [(_ & _ & E) | [Hr Ha]]].
  - left. now rewrite E.
  - left. now rewrite E.
  - right.
    destruct (run_cases rev this params Hr Ha) as
      [cs e Hn E | cs nonce e Hn Hb E | cs nonce transaction Hn Hb E];
      rewrite E; rewrite Hn in Hcalls; unfold calls in *; simpl in *; subst cs.
    + exists []. rewrite app_nil_r. auto.
    + exists []. rewrite app_nil_r. auto.
    + eexists. split; [reflexivity |]. eauto.
Qed.

(** ** Keys *)

Lemma prefix_nil (s : string) : String.prefix "" s = true.
Proof.
  now destruct s.
Qed.

Lemma substring_full (s : string) : substring 0 (String.length s) s = s.
Proof.
  induction s as [| c s IH]; simpl; [reflexivity | now rewrite IH].
Qed.

Lemma toLowerCase_char_idem (c : ascii) :
  toLowerCase_char (toLowerCase_char c) = toLowerCase_char c.
Proof.
  destruct c as [[] [] [] [] [] [] [] []]; reflexivity.
Qed.

Lemma toLowerCase_idem (s : string) : toLowerCase (toLowerCase s) = toLowerCase s.
Proof.
  induction s as [| c s IH]; simpl; [reflexivity |].
  now rewrite toLowerCase_char_idem, IH.
Qed.

Lemma without0x_prefixed (key : string) : without0x ("0x" ++ key) = key.
Proof.
  unfold without0x, startsWith, slice_from. simpl.
  rewrite prefix_nil. rewrite Nat.sub_0_r. apply substring_full.
Qed.

Lemma without0x_of_leading (key : string) :
  slice key 0 2 = "02" \/ slice key 0 2 = "03" -> without0x key = key.
Proof.
  intros Hlead. unfold without0x. now rewrite not_0x_of_leading.
Qed.

Lemma cleanedOf_accepted (rev : Revision) (pubKeyHex key : string) :
  validateCompressedPublicKey_of rev pubKeyHex = inr key ->
  cleanedOf rev key = key /\ cleanedOf rev ("0x" ++ key) = key.
Proof.
  intros Hv. apply validate_inr in Hv as (Hkey & _ & Hlead).
  pose proof (without0x_of_leading key Hlead) as Hw.
  destruct rev; unfold cleanedOf in Hkey |- *; rewrite ?without0x_prefixed, ?Hw.
  - split; reflexivity.
  - assert (Hlow : toLowerCase key = key).
    { rewrite Hkey. apply toLowerCase_idem. }
    split; exact Hlow.
Qed.

(** X1.  A key that [validateCompressedPublicKey] returns is a fixed
    point of it, in either revision: validating the returned key again, with
    or without "0x" in front, returns the same key. *)
Theorem X1_accepted_key_is_stable (rev : Revision) (pubKeyHex key : string) :
  validateCompressedPublicKey_of rev pubKeyHex = inr key ->
  validateCompressedPublicKey_of rev key = inr key /\
  validateCompressedPublicKey_of rev ("0x" ++ key) = inr key.
Proof.
  intros Hv.
  destruct (cleanedOf_accepted rev pubKeyHex key Hv) as [Hc Hcx].
  apply validate_inr in Hv as (_ & Hlen & Hlead).
  pose proof (without0x_of_leading key Hlead) as Hw.
  split.
  - rewrite <- Hc at 2. apply validate_accepts.
    + now rewrite Hw.
    + unfold leadingByte. now rewrite Hc.
  - rewrite <- Hcx at 2. apply validate_accepts.
    + now rewrite without0x_prefixed.
    + unfold leadingByte. now rewrite Hcx.
Qed.

Lemma X1_accepted_key_is_stable_witness :
  Part000.validateCompressedPublicKey Stub.key = inr Stub.key /\
  Part000.validateCompressedPublicKey ("0x" ++ Stub.key) = inr Stub.key.
Proof.
  apply (X1_accepted_key_is_stable part_000 ("0x" ++ Stub.upperCaseKey) Stub.key).
  reflexivity.
Defined.

(** X2.  The signer that the constructor returns, in either revision:
    its key has 66 characters, begins with 02 or 03 and not with 0x, and is
    the configured key without its 0x (lower-cased in the later revision,
    where lower-casing it again changes nothing); its network is the
    configured one, testnet when none is configured; client and organization
    id are the configured ones.  When the key is refused, the constructor
    throws the error of the validator and there is no signer. *)
Theorem X2_constructor (rev : Revision) (config : TurnkeySignerConfig.t) :
  match constructor_of rev config with
  | inr this =>
      let key := Shared.getPublicKey this in
      validateCompressedPublicKey_of rev (TurnkeySignerConfig.publicKey config)
        = inr key /\
      String.length key = 66 /\
      (slice key 0 2 = "02" \/ slice key 0 2 = "03") /\
      startsWith key "0x" = false /\
      key = cleanedOf rev (TurnkeySignerConfig.publicKey config) /\
      (rev = part_000 -> toLowerCase key = key) /\
      TurnkeySigner.network this = TurnkeySignerConfig.network config ?? testnet /\
      TurnkeySigner.client this = TurnkeySignerConfig.client config /\
      TurnkeySigner.organizationId this = TurnkeySignerConfig.organizationId config
  | inl e =>
      validateCompressedPublicKey_of rev (TurnkeySignerConfig.publicKey config)
        = inl e
  end.
Proof.
  rewrite constructor_of_eq.
  destruct (validateCompressedPublicKey_of rev _) as [e | key] eqn:Hv;
    [reflexivity |].
  cbv zeta. simpl.
  pose proof (validate_inr rev _ key Hv) as (Hkey & Hlen & Hlead).
  repeat split; auto using not_0x_of_leading.
  intros ->. simpl in Hkey. rewrite Hkey. apply toLowerCase_idem.
Qed.

Lemma length_toLowerCase_ascii (s : string) :
  allChars isAscii s = true ->
  String.length (toLowerCase s) = String.length s.
Proof.
  induction s as [| c s IH]; simpl; [reflexivity |].
  intros Hc. apply andb_true_iff in Hc as [_ Hs]. now rewrite IH.
Qed.

(** X3.  The prefix is taken off only when it is written "0x", and once:
    a key of 66 ASCII characters behind "0X" or behind "0x0x" is refused for
    its length, 68, in either revision, also in the one that lower-cases,
    where the prefix is looked for before the lower-casing. *)
Theorem X3_upper_case_prefix (rev : Revision) (key : string) :
  allChars isAscii key = true ->
  String.length key = 66 ->
  validateCompressedPublicKey_of rev ("0X" ++ key) =
    inl (Error (keyLengthMessage 68)) /\
  validateCompressedPublicKey_of rev ("0x0x" ++ key) =
    inl (Error (keyLengthMessage 68)).
Proof.
  intros Hascii Hlen.
  assert (Hw1 : without0x ("0X" ++ key) = "0X" ++ key) by reflexivity.
  assert (Hw2 : without0x ("0x0x" ++ key) = "0x" ++ key)
    by (change ("0x0x" ++ key) with ("0x" ++ ("0x" ++ key));
        apply without0x_prefixed).
  assert (Hc : forall prefix,
    allChars isAscii prefix = true -> String.length prefix = 2 ->
    String.length (match rev with
                   | src_index_ts => prefix ++ key
                   | part_000 => toLowerCase (prefix ++ key)
                   end) = 68).
  { intros prefix Hp Hp2.
    assert (Hall : allChars isAscii (prefix ++ key) = true).
    { clear Hp2. induction prefix as [| c prefix IH]; simpl in *; [exact Hascii |].
      apply andb_true_iff in Hp as [Hc Hp]. now rewrite Hc, IH. }
    destruct rev; rewrite ?length_toLowerCase_ascii by exact Hall;
      rewrite length_append, Hp2, Hlen; reflexivity. }
  split.
  - rewrite (validate_cleaned_wrong_length rev ("0X" ++ key));
      unfold cleanedOf; rewrite Hw1;
      destruct rev; rewrite (Hc "0X") by reflexivity; (reflexivity || lia).
  - rewrite (validate_cleaned_wrong_length rev ("0x0x" ++ key));
      unfold cleanedOf; rewrite Hw2;
      destruct rev; rewrite (Hc "0x") by reflexivity; (reflexivity || lia).
Qed.

Lemma X3_upper_case_prefix_witness :
  Part000.validateCompressedPublicKey ("0X" ++ Stub.key) =
    inl (Error "Invalid public key length: expected 66 hex chars (33 bytes compressed), got 68") /\
  Part000.validateCompressedPublicKey ("0x0x" ++ Stub.key) =
    inl (Error "Invalid public key length: expected 66 hex chars (33 bytes compressed), got 68").
Proof.
  apply (X3_upper_case_prefix part_000 Stub.key); reflexivity.
Defined.

(** ** The recovery byte *)

(** X4.  What [normalizeRecoveryByte] returns is "00" or "01", two
    characters, and is a fixed point: normalising it again returns it. *)
Theorem X4_recovery_byte_normal_form (v v' : string) :
  normalizeRecoveryByte v = inr v' ->
  (v' = "00" \/ v' = "01") /\
  String.length v' = 2 /\
  normalizeRecoveryByte v' = inr v'.
Proof.
  rewrite normalizeRecoveryByte_eq.
  destruct (parseInt v 16) as [| [| [p | p |] | p]]; try discriminate;
    intros [= <-]; repeat split; auto.
Qed.

Lemma X4_recovery_byte_normal_form_witness :
  ("01" = "00" \/ "01" = "01") /\
  String.length "01" = 2 /\
  normalizeRecoveryByte "01" = inr "01".
Proof.
  apply (X4_recovery_byte_normal_form " +0x1zz" "01"). reflexivity.
Defined.

(** ** Addresses *)

(** X5.  [getAddress] of a signer and [getAddressFromPublicKey] on the
    configured key agree, in either revision and whatever the library
    computes: when the constructor returns a signer, [getAddress(network)]
    is what [getAddressFromPublicKey] returns for the network asked for, or
    else the configured one, or else testnet; when the constructor throws,
    [getAddressFromPublicKey] throws the same error for every network. *)
Theorem X5_address_functions_agree `{StacksTransactions}
  (rev : Revision) (config : TurnkeySignerConfig.t)
  (network : option StacksNetworkType) :
  match constructor_of rev config with
  | inr this =>
      getAddressFromPublicKey_of rev (TurnkeySignerConfig.publicKey config)
        (Some (network ?? (TurnkeySignerConfig.network config ?? testnet)))
      = inr (Shared.getAddress this network) /\
      (TurnkeySignerConfig.network config = None ->
       getAddressFromPublicKey_of rev (TurnkeySignerConfig.publicKey config) network
       = inr (Shared.getAddress this network))
  | inl e =>
      getAddressFromPublicKey_of rev (TurnkeySignerConfig.publicKey config) network
      = inl e
  end.
Proof.
  assert (Hget : forall n,
    getAddressFromPublicKey_of rev (TurnkeySignerConfig.publicKey config) n =
    match validateCompressedPublicKey_of rev
            (TurnkeySignerConfig.publicKey config) with
    | inl e => inl e
    | inr cleaned => inr (publicKeyToAddress cleaned (n ?? testnet))
    end) by (destruct rev; reflexivity).
  rewrite constructor_of_eq, !Hget.
  destruct (validateCompressedPublicKey_of rev _) as [e | key]; [reflexivity |].
  unfold Shared.getAddress. simpl.
  split; [reflexivity |].
  intros Hnone. rewrite Hnone. now destruct network.
Qed.

(** ** The calls of [signSTXTransfer] *)

(** X6.  [signSTXTransfer], in either revision, makes at most one nonce
    fetch and at most one signing request, the fetch first: with a nonce
    from the caller the calls are nothing or one signing request; without
    one they are nothing, the fetch alone, or the fetch and then one signing
    request. *)
Theorem X6_call_discipline `{StacksTransactions} `{HostEnvironment}
  (rev : Revision) (this : TurnkeySigner.t) (params : STXTransferParams.t) :
  match STXTransferParams.nonce params with
  | Some _ =>
      calls (signSTXTransfer_of rev this params) = [] \/
      exists request,
        calls (signSTXTransfer_of rev this params) = [SignRawPayload request]
  | None =>
      calls (signSTXTransfer_of rev this params) = [] \/
      calls (signSTXTransfer_of rev this params) = [Fetch (nonceUrl this params)] \/
      exists request,
        calls (signSTXTransfer_of rev this params)
          = [Fetch (nonceUrl this params); SignRawPayload request]
  end.
Proof.
  destruct (calls_cases rev this params) as [E | (signings & E & Hs)];
    rewrite E.
  - destruct (STXTransferParams.nonce params); now left.
  - destruct (STXTransferParams.nonce params) as [n |];
      destruct Hs as [-> | [request ->]]; simpl; eauto.
Qed.

(** X7.  When the caller gives no nonce and the guards are passed, a
    nonce service that fails ends the call, in either revision, after the
    fetch alone and without a signing request: a fetch that rejects, with
    the rejection; an answer whose status is outside 200-299, with "Failed
    to fetch nonce: <status> <statusText>"; a body that cannot be read, with
    the error of the body. *)
Theorem X7_nonce_service `{StacksTransactions} `{HostEnvironment}
  (rev : Revision) (this : TurnkeySigner.t) (params : STXTransferParams.t) :
  STXTransferParams.nonce params = None ->
  validateStacksAddress (STXTransferParams.recipient params) = true ->
  (0 < STXTransferParams.amount params)%Z ->
  (forall e,
     fetch (nonceUrl this params) = inl e ->
     signSTXTransfer_of rev this params
       = ([Fetch (nonceUrl this params)], inl e)) /\
  (forall res,
     fetch (nonceUrl this params) = inr res ->
     Response.ok res = false ->
     signSTXTransfer_of rev this params =
       ([Fetch (nonceUrl this params)],
        inl (Error ("Failed to fetch nonce: " ++ of_nat (Response.status res)
                    ++ " " ++ Response.statusText res)))) /\
  (forall res e,
     fetch (nonceUrl this params) = inr res ->
     Response.ok res = true ->
     Response.json res = inl e ->
     signSTXTransfer_of rev this params
       = ([Fetch (nonceUrl this params)], inl e)).
Proof.
  intros Hnone Hr Ha.
  assert (Hn : resolveNonce this params =
               Shared.fetchNonce (senderOf this params) (networkOf this params)).
  { unfold resolveNonce. now rewrite Hnone. }
  rewrite fetchNonce_eq in Hn. cbv zeta in Hn. fold (nonceUrl this params) in Hn.
  split; [| split].
  - intros e Hf. rewrite Hf in Hn. now apply signSTXTransfer_no_nonce.
  - intros res Hf Hok. rewrite Hf, Hok in Hn. now apply signSTXTransfer_no_nonce.
  - intros res e Hf Hok Hj. rewrite Hf, Hok, Hj in Hn.
    now apply signSTXTransfer_no_nonce.
Qed.

Lemma X7_nonce_service_witness :
  @signSTXTransfer_of Stub.library unavailableHost part_000
    (Stub.signer Stub.client Stub.key)
    (Stub.transfer Stub.knownRecipient 1000000 None None)
  = ([Fetch (@nonceUrl Stub.library (Stub.signer Stub.client Stub.key)
               (Stub.transfer Stub.knownRecipient 1000000 None None))],
     inl (Error "Failed to fetch nonce: 503 Service Unavailable")).
Proof.
  destruct (@X7_nonce_service Stub.library unavailableHost part_000
              (Stub.signer Stub.client Stub.key)
              (Stub.transfer Stub.knownRecipient 1000000 None None))
    as (_ & Hstatus & _); [reflexivity | reflexivity | reflexivity |].
  apply (Hstatus {| Response.status := 503;
                    Response.statusText := "Service Unavailable";
                    Response.json := inl (Error "Unexpected end of JSON input") |});
    reflexivity.
Defined.

(** X8.  The nonce is asked of the service of the network of the
    transfer, for the sender on that same network: a fetch that
    [signSTXTransfer] makes, in either revision, goes to
    https://api.testnet.hiro.so or https://api.hiro.so by the network of the
    parameters, or else of the signer, at
    /extended/v1/address/<address>/nonces, where the address is what
    [publicKeyToAddress] gives for the signer's key on that network; and it
    is made only when the caller gave no nonce. *)
Theorem X8_nonce_request `{StacksTransactions} `{HostEnvironment}
  (rev : Revision) (this : TurnkeySigner.t) (params : STXTransferParams.t)
  (url : string) :
  In (Fetch url) (calls (signSTXTransfer_of rev this params)) ->
  let network :=
    STXTransferParams.network params ?? TurnkeySigner.network this in
  STXTransferParams.nonce params = None /\
  url = match network with
        | testnet => "https://api.testnet.hiro.so"
        | mainnet => "https://api.hiro.so"
        end
        ++ "/extended/v1/address/"
        ++ publicKeyToAddress (Shared.getPublicKey this) network
        ++ "/nonces".
Proof.
  intros Hin network.
  destruct (calls_cases rev this params) as [E | (signings & E & Hs)];
    rewrite E in Hin; [contradiction Hin |].
  apply in_app_or in Hin as [Hin | Hin].
  - destruct (STXTransferParams.nonce params) as [n |]; [contradiction Hin |].
    destruct Hin as [D | []]. injection D as <-.
    split; [reflexivity |].
    unfold nonceUrl, senderOf, networkOf, Shared.getAddress,
      Shared.getPublicKey, API_ENDPOINTS. simpl nullish.
    fold network. now destruct network.
  - destruct Hs as [-> | [request ->]]; [contradiction Hin |].
    destruct Hin as [D | []]. discriminate D.
Qed.

Lemma X8_nonce_request_witness :
  STXTransferParams.nonce (Stub.transfer Stub.knownRecipient 1000000 None None)
    = None /\
  "https://api.testnet.hiro.so/extended/v1/address/ST5afa6566651f6c49d84a482a1af918b25ba7caac00000000/nonces"
  = "https://api.testnet.hiro.so" ++ "/extended/v1/address/"
    ++ @publicKeyToAddress Stub.library Stub.key testnet ++ "/nonces".
Proof.
  apply (@X8_nonce_request Stub.library Stub.host src_index_ts
           (Stub.signer Stub.client Stub.key)
           (Stub.transfer Stub.knownRecipient 1000000 None None)).
  vm_compute. left. reflexivity.
Defined.

(** X9.  When [makeUnsignedSTXTokenTransfer] throws, [signSTXTransfer]
    rejects with what it threw, in either revision, and no signing request
    is made: the client is asked to sign only a transaction that was
    built. *)
Theorem X9_builder_failure `{StacksTransactions} `{HostEnvironment}
  (rev : Revision) (this : TurnkeySigner.t) (params : STXTransferParams.t)
  (cs : list Call) (nonce : Z) (e : Thrown) :
  validateStacksAddress (STXTransferParams.recipient params) = true ->
  (0 < STXTransferParams.amount params)%Z ->
  resolveNonce this params = (cs, inr nonce) ->
  makeUnsignedSTXTokenTransfer (transferOptions this params nonce) = inl e ->
  outcome (signSTXTransfer_of rev this params) = inl e /\
  forall request,
    ~ In (SignRawPayload request) (calls (signSTXTransfer_of rev this params)).
Proof.
  intros Hr Ha Hn Hb.
  rewrite (signSTXTransfer_no_transaction rev this params Hr Ha cs nonce e Hn Hb).
  split; [reflexivity |].
  intros request. unfold calls. simpl.
  eapply resolveNonce_no_signing; eauto.
Qed.

Lemma X9_builder_failure_witness :
  outcome (@signSTXTransfer_of memoCheckingLibrary Stub.host part_000
             (Stub.signer Stub.client Stub.key) longMemoTransfer)
    = inl (Error "Memo exceeds maximum length of 34 bytes") /\
  forall request,
    ~ In (SignRawPayload request)
        (calls (@signSTXTransfer_of memoCheckingLibrary Stub.host part_000
                  (Stub.signer Stub.client Stub.key) longMemoTransfer)).
Proof.
  apply (@X9_builder_failure memoCheckingLibrary Stub.host part_000
           (Stub.signer Stub.client Stub.key) longMemoTransfer [] 5%Z
           (Error "Memo exceeds maximum length of 34 bytes")).
  - reflexivity.
  - simpl. lia.
  - reflexivity.
  - reflexivity.
Defined.

(** ** What a successful call went through *)

(** X10.  When [signSTXTransfer] succeeds, in either revision: the
    recipient passed [validateStacksAddress] and the amount is positive; the
    client answered the one signing request with a raw signature whose [v]
    normalises to "00" or "01" and whose [r] and [s] have at most 64
    characters; the string given to [createMessageSignature] is
    [v ++ r ++ s] with [r] and [s] padded, 130 characters in all; and the
    sender address returned is the address of the signer's key on the
    network of the transfer. *)
Theorem X10_success `{StacksTransactions} `{HostEnvironment}
  (rev : Revision) (this : TurnkeySigner.t) (params : STXTransferParams.t)
  (result : SignedTransactionResult.t StacksTransactionWire) :
  outcome (signSTXTransfer_of rev this params) = inr result ->
  validateStacksAddress (STXTransferParams.recipient params) = true /\
  (0 < STXTransferParams.amount params)%Z /\
  SignedTransactionResult.senderAddress result =
    publicKeyToAddress (Shared.getPublicKey this)
      (STXTransferParams.network params ?? TurnkeySigner.network this) /\
  exists request signature v transaction messageSignature,
    In (SignRawPayload request) (calls (signSTXTransfer_of rev this params)) /\
    signRawPayload (TurnkeySigner.client this) request = inr signature /\
    normalizeRecoveryByte (RawSignature.v signature) = inr v /\
    (v = "00" \/ v = "01") /\
    String.length (RawSignature.r signature) <= 64 /\
    String.length (RawSignature.s signature) <= 64 /\
    String.length (v ++ padStart (RawSignature.r signature) 64 "0"
                     ++ padStart (RawSignature.s signature) 64 "0") = 130 /\
    createMessageSignature (v ++ padStart (RawSignature.r signature) 64 "0"
                              ++ padStart (RawSignature.s signature) 64 "0")
      = inr messageSignature /\
    SignedTransactionResult.transaction result
      = setSignature transaction messageSignature.
Proof.
  intros Hok.
  destruct (success_guards rev this params result Hok) as [Hr Ha].
  apply success_inv in Hok
    as (cs & nonce & transaction & signature & Hn & Hb & Hs & Hatt & Hcalls).
  apply attach_inr in Hatt as (v & messageSignature & Hv & Hv01 & Hlen & Hm & ->).
  simpl.
  split; [exact Hr | split; [exact Ha | split; [reflexivity |]]].
  assert (Hv2 : String.length v = 2) by (destruct Hv01 as [-> | ->]; reflexivity).
  pose proof (padStart_length_ge (RawSignature.r signature) 64) as [Hr64 Hrr].
  pose proof (padStart_length_ge (RawSignature.s signature) 64) as [Hs64 Hss].
  pose proof Hlen as Hlen'. rewrite !length_append, Hv2 in Hlen'.
  exists (signingRequest rev this (preSignHashOf transaction)), signature, v,
    transaction, messageSignature.
  repeat split; auto; try lia.
  rewrite Hcalls. apply in_or_app. right. now left.
Qed.

Lemma X10_success_witness :
  @validateStacksAddress Stub.library Stub.knownRecipient = true /\
  (0 < 1000000)%Z.
Proof.
  destruct (@X10_success Stub.library Stub.host part_000
              (Stub.signer Stub.client Stub.key)
              (Stub.transfer Stub.knownRecipient 1000000 (Some 5%Z) (Some 200%Z))
              _ eq_refl) as (Hr & Ha & _).
  split; [exact Hr | exact Ha].
Defined.

(** ** A signing request that is rejected *)

(** X11.  When the client rejects the signing request, [signSTXTransfer]
    is rejected, and that request was the only one made: nothing is tried
    again.  src/src/index.ts rejects with the error of the client as it is.
    The later revision does the same unless the message of the error (or its
    text, when it is no Error) holds "Could not find any resource to sign
    with"; then it rejects with a new Error whose message holds the public
    key of the signer, its organization id (a placeholder when there is
    none) and the original message. *)
Theorem X11_rejected_signing `{StacksTransactions} `{HostEnvironment}
  (rev : Revision) (this : TurnkeySigner.t) (params : STXTransferParams.t)
  (request : SignRawPayloadParams.t) (error : Thrown) :
  In (SignRawPayload request) (calls (signSTXTransfer_of rev this params)) ->
  signRawPayload (TurnkeySigner.client this) request = inl error ->
  (exists cs,
     calls (signSTXTransfer_of rev this params)
       = (cs ++ [SignRawPayload request])%list /\
     forall request', ~ In (SignRawPayload request') cs) /\
  match rev with
  | src_index_ts => outcome (signSTXTransfer_of rev this params) = inl error
  | part_000 =>
      if includes (messageOf error) "Could not find any resource to sign with"
      then
        exists message,
          outcome (signSTXTransfer_of rev this params) = inl (Error message) /\
          includes message (Shared.getPublicKey this) = true /\
          includes message
            (TurnkeySigner.organizationId this
             ?? "(not set — using client session)") = true /\
          includes message (messageOf error) = true
      else outcome (signSTXTransfer_of rev this params) = inl error
  end.
Proof.
  intros Hin Hs.
  destruct (signSTXTransfer_signing_failure rev this params request error Hin Hs)
    as [Hout Hcalls].
  split; [exact Hcalls |].
  destruct rev; [exact Hout |].
  pose proof (Part000_rethrown this error) as [Hplain Hrich].
  change "Could not find any resource to sign with" with Part000.resourceNotFound.
  destruct (includes (messageOf error) Part000.resourceNotFound).
  - destruct (Hrich eq_refl) as (message & E & Hk & Ho & Hm).
    exists message. rewrite Hout, E. auto.
  - now rewrite Hout, Hplain.
Qed.

Lemma X11_rejected_signing_witness :
  exists message,
    outcome (@signSTXTransfer_of Stub.library Stub.host part_000
               (Stub.signer Stub.rejectingClient Stub.key)
               (Stub.transfer Stub.knownRecipient 1000000 (Some 5%Z) None))
      = inl (Error message) /\
    includes message Stub.key = true /\
    includes message "org-123" = true /\
    includes message "Could not find any resource to sign with" = true.
Proof.
  destruct (@X11_rejected_signing Stub.library Stub.host part_000
              (Stub.signer Stub.rejectingClient Stub.key)
              (Stub.transfer Stub.knownRecipient 1000000 (Some 5%Z) None)
              (signingRequest part_000
                 (Stub.signer Stub.rejectingClient Stub.key) Stub.digest)
              (Error "Could not find any resource to sign with"))
    as [_ Hrich].
  - vm_compute. left. reflexivity.
  - reflexivity.
  - exact Hrich.
Defined.

(** ** The organization id of a signing request *)

Lemma includes_prefix (t sub : string) :
  String.prefix sub t = true -> includes t sub = true.
Proof.
  intros Hp. destruct t as [| c t]; cbn [includes]; now rewrite Hp.
Qed.

(** X12.  src/src/index.ts never sends an organization id with a signing
    request.  The later revision sends the organization id of the signer
    when there is one and it is not the empty string, and none otherwise, so
    that the session of the client decides; and with the empty string the
    message of the key-not-found error shows an empty organization id, not
    the placeholder that it shows when there is none. *)
Theorem X12_organization_id `{StacksTransactions} `{HostEnvironment}
  (rev : Revision) (this : TurnkeySigner.t) (params : STXTransferParams.t)
  (request : SignRawPayloadParams.t) :
  In (SignRawPayload request) (calls (signSTXTransfer_of rev this params)) ->
  (rev = src_index_ts -> SignRawPayloadParams.organizationId request = None) /\
  (rev = part_000 ->
   (forall id,
      SignRawPayloadParams.organizationId request = Some id <->
      TurnkeySigner.organizationId this = Some id /\ id <> "") /\
   (TurnkeySigner.organizationId this = Some "" ->
    forall message,
      includes (Part000.signingKeyNotFoundMessage this message)
        ("  organizationId:      " ++ LF ++ LF ++ "Possible causes:") = true) /\
   (TurnkeySigner.organizationId this = None ->
    forall message,
      includes (Part000.signingKeyNotFoundMessage this message)
        ("  organizationId:      (not set — using client session)" ++ LF) = true)).
Proof.
  intros Hin.
  apply signing_call_inv in Hin
    as (_ & _ & cs & nonce & transaction & _ & _ & -> & _).
  split; [now intros -> |].
  intros ->. split; [| split].
  - intros id. simpl.
    destruct (TurnkeySigner.organizationId this) as [id' |]; simpl.
    + destruct (String.eqb_spec id' "") as [-> | Hne]; split.
      * discriminate.
      * intros [[= <-] Hne]. congruence.
      * intros [= <-]. auto.
      * now intros [[= <-] _].
    + split; [discriminate | now intros [? _]].
  - intros Hempty message. unfold Part000.signingKeyNotFoundMessage.
    rewrite Hempty. simpl nullish.
    do 5 apply includes_skip.
    apply includes_prefix. reflexivity.
  - intros Hnone message. unfold Part000.signingKeyNotFoundMessage.
    rewrite Hnone. simpl nullish.
    do 5 apply includes_skip.
    apply includes_prefix. reflexivity.
Qed.

Lemma X12_organization_id_witness :
  includes
    (Part000.signingKeyNotFoundMessage (sessionSigner Stub.client (Some ""))
       "Could not find any resource to sign with")
    ("  organizationId:      " ++ LF ++ LF ++ "Possible causes:") = true.
Proof.
  destruct (@X12_organization_id Stub.library Stub.host part_000
              (sessionSigner Stub.client (Some ""))
              (Stub.transfer Stub.knownRecipient 1000000 (Some 5%Z) None)
              (signingRequest part_000
                 (sessionSigner Stub.client (Some "")) Stub.digest))
    as [_ Hlater].
  - vm_compute. left. reflexivity.
  - destruct (Hlater eq_refl) as (_ & Hempty & _).
    apply Hempty. reflexivity.
Defined.

(** ** Broadcasting *)

Section BroadcastingProperties.

Context `{lib : StacksTransactions} `{host : HostEnvironment}
  `{node : !StacksBroadcast lib}.

Lemma not_in_signer_calls (cs : list Call)
  (transaction : StacksTransactionWire) (network : StacksNetworkType) :
  ~ In (BroadcastTransaction transaction network) (map BySigner cs).
Proof.
  intros Hin. apply in_map_iff in Hin as (c & E & _). discriminate E.
Qed.

Lemma signAndBroadcast_unsigned (rev : Revision)
  (signer : TurnkeySigner.t) (params : STXTransferParams.t) (e : Thrown) :
  outcome (signSTXTransfer_of rev signer params) = inl e ->
  signAndBroadcastSTXTransfer_of rev signer params =
    (map BySigner (calls (signSTXTransfer_of rev signer params)), inl e).
Proof.
  intros Hfail.
  unfold signAndBroadcastSTXTransfer_of, ofSigner, andThen at 1.
  now rewrite Hfail.
Qed.

Lemma signAndBroadcast_signed (rev : Revision)
  (signer : TurnkeySigner.t) (params : STXTransferParams.t)
  (signed : SignedTransactionResult.t StacksTransactionWire) :
  outcome (signSTXTransfer_of rev signer params) = inr signed ->
  fst (signAndBroadcastSTXTransfer_of rev signer params) =
    (map BySigner (calls (signSTXTransfer_of rev signer params))
     ++ [BroadcastTransaction (SignedTransactionResult.transaction signed)
           (STXTransferParams.network params ?? TurnkeySigner.network signer)])%list /\
  snd (signAndBroadcastSTXTransfer_of rev signer params) =
    match stacksBroadcastTransaction
            (SignedTransactionResult.transaction signed)
            (STXTransferParams.network params ?? TurnkeySigner.network signer) with
    | inl e => inl e
    | inr (ReplyOther json) => inl (Error ("Broadcast failed: " ++ json))
    | inr (ReplyString txid) | inr (ReplyWithTxid txid) =>
        inr {| BroadcastResult.txid := txid;
               BroadcastResult.senderAddress :=
                 SignedTransactionResult.senderAddress signed;
               BroadcastResult.recipient := STXTransferParams.recipient params;
               BroadcastResult.amount := STXTransferParams.amount params |}
    end.
Proof.
  intros Hok.
  unfold signAndBroadcastSTXTransfer_of, ofSigner, andThen at 1.
  rewrite Hok.
  unfold broadcastTransaction, await_stacksBroadcastTransaction, andThen.
  cbv zeta. simpl nullish.
  destruct (stacksBroadcastTransaction _ _) as [e | [txid | txid | json]];
    split; reflexivity.
Qed.

(** X14.  When the signing fails, [signAndBroadcastSTXTransfer] fails
    with the same error, in either revision, and nothing is broadcast: what
    left the process is what the signer did, which is nothing at all when a
    guard stopped it. *)
Theorem X14_no_broadcast_without_signature (rev : Revision)
  (signer : TurnkeySigner.t) (params : STXTransferParams.t) (e : Thrown) :
  outcome (signSTXTransfer_of rev signer params) = inl e ->
  signAndBroadcastSTXTransfer_of rev signer params =
    (map BySigner (calls (signSTXTransfer_of rev signer params)), inl e) /\
  forall transaction network,
    ~ In (BroadcastTransaction transaction network)
        (fst (signAndBroadcastSTXTransfer_of rev signer params)).
Proof.
  intros Hfail.
  pose proof (signAndBroadcast_unsigned rev signer params e Hfail) as E.
  split; [exact E |].
  intros transaction network. rewrite E. apply not_in_signer_calls.
Qed.

(** X15.  When the signing succeeds, [signAndBroadcastSTXTransfer], in
    either revision, broadcasts the signed transaction once, after the calls
    of the signer, on the network of the parameters or else of the signer,
    which is the network the transaction was built for.  With a txid from
    the library, as a string or in an object, it returns that txid, the
    sender address of the signing, and the recipient and the amount of the
    parameters; otherwise it fails as [broadcastTransaction] does. *)
Theorem X15_sign_then_broadcast (rev : Revision)
  (signer : TurnkeySigner.t) (params : STXTransferParams.t)
  (signed : SignedTransactionResult.t StacksTransactionWire) :
  outcome (signSTXTransfer_of rev signer params) = inr signed ->
  let network :=
    STXTransferParams.network params ?? TurnkeySigner.network signer in
  fst (signAndBroadcastSTXTransfer_of rev signer params) =
    (map BySigner (calls (signSTXTransfer_of rev signer params))
     ++ [BroadcastTransaction (SignedTransactionResult.transaction signed) network])%list /\
  snd (signAndBroadcastSTXTransfer_of rev signer params) =
    match stacksBroadcastTransaction
            (SignedTransactionResult.transaction signed) network with
    | inl e => inl e
    | inr (ReplyOther json) => inl (Error ("Broadcast failed: " ++ json))
    | inr (ReplyString txid) | inr (ReplyWithTxid txid) =>
        inr {| BroadcastResult.txid := txid;
               BroadcastResult.senderAddress :=
                 publicKeyToAddress (Shared.getPublicKey signer) network;
               BroadcastResult.recipient := STXTransferParams.recipient params;
               BroadcastResult.amount := STXTransferParams.amount params |}
    end /\
  exists nonce built messageSignature,
    makeUnsignedSTXTokenTransfer (transferOptions signer params nonce) = inr built /\
    UnsignedTokenTransferOptions.network (transferOptions signer params nonce)
      = network /\
    SignedTransactionResult.transaction signed = setSignature built messageSignature.
Proof.
  intros Hok network.
  destruct (signAndBroadcast_signed rev signer params signed Hok) as [Hfst Hsnd].
  fold network in Hfst, Hsnd.
  apply success_inv in Hok
    as (cs & nonce & built & signature & _ & Hb & _ & Hatt & _).
  apply attach_inr in Hatt as (v & messageSignature & _ & _ & _ & _ & ->).
  simpl in *.
  split; [exact Hfst | split; [exact Hsnd |]].
  exists nonce, built, messageSignature. auto.
Qed.

(** X16.  Whatever [signAndBroadcastSTXTransfer] broadcasts, in either
    revision, is the transaction of a signing that succeeded, on the network
    of the transfer: the recipient passed the address check, the amount is
    positive, and the broadcast is the last thing done and the only
    broadcast. *)
Theorem X16_what_is_broadcast (rev : Revision)
  (signer : TurnkeySigner.t) (params : STXTransferParams.t)
  (transaction : StacksTransactionWire) (network : StacksNetworkType) :
  In (BroadcastTransaction transaction network)
     (fst (signAndBroadcastSTXTransfer_of rev signer params)) ->
  validateStacksAddress (STXTransferParams.recipient params) = true /\
  (0 < STXTransferParams.amount params)%Z /\
  network = STXTransferParams.network params ?? TurnkeySigner.network signer /\
  (exists signed,
     outcome (signSTXTransfer_of rev signer params) = inr signed /\
     transaction = SignedTransactionResult.transaction signed) /\
  fst (signAndBroadcastSTXTransfer_of rev signer params) =
    (map BySigner (calls (signSTXTransfer_of rev signer params))
     ++ [BroadcastTransaction transaction network])%list.
Proof.
  intros Hin.
  destruct (outcome (signSTXTransfer_of rev signer params)) as [e | signed] eqn:Hout.
  - exfalso.
    rewrite (signAndBroadcast_unsigned rev signer params e Hout) in Hin.
    now apply not_in_signer_calls in Hin.
  - destruct (signAndBroadcast_signed rev signer params signed Hout) as [Hfst _].
    rewrite Hfst in Hin.
    apply in_app_or in Hin as [Hin | [Hin | []]];
      [now apply not_in_signer_calls in Hin |].
    injection Hin as <- <-.
    destruct (success_guards rev signer params signed Hout) as [Hr Ha].
    repeat split; eauto.
Qed.

End BroadcastingProperties.

Lemma X14_no_broadcast_without_signature_witness :
  @signAndBroadcastSTXTransfer_of Stub.library Stub.host stubNode part_000
    (Stub.signer Stub.client Stub.key)
    (Stub.transfer "not-an-address" 1000000 None None)
  = ([], inl (Error "Invalid recipient Stacks address: not-an-address")).
Proof.
  apply (@X14_no_broadcast_without_signature Stub.library Stub.host stubNode
           part_000 (Stub.signer Stub.client Stub.key)
           (Stub.transfer "not-an-address" 1000000 None None)).
  reflexivity.
Defined.

Lemma X15_sign_then_broadcast_witness :
  snd (@signAndBroadcastSTXTransfer_of Stub.library Stub.host stubNode
         src_index_ts (Stub.signer Stub.client Stub.key)
         (Stub.transfer Stub.knownRecipient 1000000 (Some 5%Z) (Some 200%Z)))
  = inr {| BroadcastResult.txid := "0xabc123";
           BroadcastResult.senderAddress :=
             "ST5afa6566651f6c49d84a482a1af918b25ba7caac00000000";
           BroadcastResult.recipient := Stub.knownRecipient;
           BroadcastResult.amount := 1000000 |}.
Proof.
  destruct (@X15_sign_then_broadcast Stub.library Stub.host stubNode
              src_index_ts (Stub.signer Stub.client Stub.key)
              (Stub.transfer Stub.knownRecipient 1000000 (Some 5%Z) (Some 200%Z))
              _ eq_refl) as (_ & Hsnd & _).
  rewrite Hsnd. reflexivity.
Defined.

Lemma X16_what_is_broadcast_witness :
  @validateStacksAddress Stub.library Stub.knownRecipient = true /\
  (0 < 1000000)%Z /\
  testnet = testnet.
Proof.
  destruct (@X16_what_is_broadcast Stub.library Stub.host stubNode
              part_000 (Stub.signer Stub.client Stub.key)
              (Stub.transfer Stub.knownRecipient 1000000 (Some 5%Z) None)
              (Stub.Build_Transaction
                 (transferOptions (Stub.signer Stub.client Stub.key)
                    (Stub.transfer Stub.knownRecipient 1000000 (Some 5%Z) None) 5)
                 (Some "010000000000000000000000000000000000000000000000000000000000001f2e00000000000000000000000000000000000000000000000000000000003d4c5b"))
              testnet)
    as (Hr & Ha & Hn & _).
  - vm_compute. right. left. reflexivity.
  - split; [exact Hr | split; [exact Ha | exact Hn]].
Defined.
